(** * OrderWatch: the request layer of the front end (services/api.js)

    A shallow embedding of the API service module: response sanitising and
    validation, the in-flight request registry of [makeRequest], the retry
    wrapper [makeRequestWithRetry], the five job operations and the polling
    loop [pollScrapingProgress], together with the cancel handler of
    App.jsx.  JavaScript values are modelled as a small dynamically typed
    value type, exceptions as an explicit completion type, and the network
    as an oracle that answers each dispatched request. *)

From Stdlib Require Import ZArith QArith Qcanon Qround Ascii String List Lia.
From stdpp Require Import gmap strings list pretty.

Local Open Scope string_scope.
Local Open Scope list_scope.
Local Open Scope Z_scope.
Set Warnings "-register-all".

(** ** JavaScript values *)

(** A JavaScript number: the finite doubles are rationals; the two
    infinities and NaN are kept apart.  Negative zero is identified with
    zero (nothing below tells them apart). *)
Inductive jsnum : Type :=
| NaN
| PosInf
| NegInf
| Fin (q : Qc).

(** Values that cross the module boundary: decoded JSON plus [undefined]. *)
Inductive json : Type :=
| JUndefined
| JNull
| JBool (b : bool)
| JNum (n : jsnum)
| JStr (s : string)
| JArr (items : list json)
| JObj (fields : list (string * json)).

Definition num (z : Z) : jsnum := Fin (Q2Qc (inject_Z z)).

Definition Qc_zero (q : Qc) : bool := if decide (q = Q2Qc 0) then true else false.

(** [Boolean(v)] / the truthiness used by [if], [||] and [!]. *)
Definition truthy (v : json) : bool :=
  match v with
  | JUndefined | JNull => false
  | JBool b => b
  | JNum NaN => false
  | JNum (Fin q) => negb (Qc_zero q)
  | JNum _ => true
  | JStr s => negb (String.eqb s "")
  | JArr _ | JObj _ => true
  end.

(** [a || b] on values. *)
Definition js_or (a b : json) : json := if truthy a then a else b.

Fixpoint assoc (k : string) (fs : list (string * json)) : option json :=
  match fs with
  | [] => None
  | (k', v) :: rest => if String.eqb k k' then Some v else assoc k rest
  end.

(** Property read [v.k].  Only objects carry the fields read by this
    module (none of the names it reads is a member of a prototype, an array
    index or [length]); reads on [null] are guarded at their call sites. *)
Definition get (k : string) (v : json) : json :=
  match v with
  | JObj fs => match assoc k fs with Some x => x | None => JUndefined end
  | _ => JUndefined
  end.

(** [typeof v === 'object'] *)
Definition typeof_object (v : json) : bool :=
  match v with
  | JNull | JArr _ | JObj _ => true
  | _ => false
  end.

Definition isArray (v : json) : bool :=
  match v with JArr _ => true | _ => false end.

(** [s.includes(t)] *)
Fixpoint includes (s t : string) : bool :=
  String.prefix t s ||
  match s with
  | EmptyString => false
  | String _ rest => includes rest t
  end.

(** ** Numbers *)

Definition Qc_min (a b : Qc) : Qc := if decide (a <= b)%Qc then a else b.
Definition Qc_max (a b : Qc) : Qc := if decide (a <= b)%Qc then b else a.

(** [Math.min(a, b)] and [Math.max(a, b)] *)
Definition Math_min (a b : jsnum) : jsnum :=
  match a, b with
  | NaN, _ | _, NaN => NaN
  | NegInf, _ | _, NegInf => NegInf
  | PosInf, x | x, PosInf => x
  | Fin p, Fin q => Fin (Qc_min p q)
  end.

Definition Math_max (a b : jsnum) : jsnum :=
  match a, b with
  | NaN, _ | _, NaN => NaN
  | PosInf, _ | _, PosInf => PosInf
  | NegInf, x | x, NegInf => x
  | Fin p, Fin q => Fin (Qc_max p q)
  end.

(** [Math.ceil(x)] *)
Definition Math_ceil (x : jsnum) : jsnum :=
  match x with
  | Fin q => num (Qceiling (this q))
  | other => other
  end.

(** [x * k] and [x / k] for a positive integer constant [k]. *)
Definition times_const (x : jsnum) (k : Z) : jsnum :=
  match x with
  | Fin q => Fin (q * Q2Qc (inject_Z k))%Qc
  | other => other
  end.

Definition div_const (x : jsnum) (k : Z) : jsnum :=
  match x with
  | Fin q => Fin (q / Q2Qc (inject_Z k))%Qc
  | other => other
  end.

(** ** Errors and completions *)

(** What a [throw] carries.  [ApiError] is the module's own class
    (its [name] is the string ApiError); every other exception (a
    DOMException such as AbortError, a TypeError of fetch, a SyntaxError
    of the body decoder) only exposes [name] and [message]. *)
Inductive JsError : Type :=
| ApiError (message : string) (status : Z) (data : json)
| NativeError (name : string) (message : string).

Definition error_name (e : JsError) : string :=
  match e with
  | ApiError _ _ _ => "ApiError"
  | NativeError n _ => n
  end.

Definition error_message (e : JsError) : string :=
  match e with
  | ApiError m _ _ => m
  | NativeError _ m => m
  end.

(** [error.status]: a number on ApiError, [undefined] otherwise. *)
Definition error_status (e : JsError) : option Z :=
  match e with
  | ApiError _ s _ => Some s
  | NativeError _ _ => None
  end.

Definition instanceof_ApiError (e : JsError) : bool :=
  match e with ApiError _ _ _ => true | NativeError _ _ => false end.

(** [error.status || 0] *)
Definition status_or_zero (e : JsError) : Z :=
  match error_status e with
  | Some s => s
  | None => 0
  end.

(** The result of evaluating a block: a value, or a thrown exception. *)
Inductive completion (A : Type) : Type :=
| Return (a : A)
| Throw (e : JsError).
Arguments Return {A} a.
Arguments Throw {A} e.

(** ** The platform

    Built-ins of the browser and of DOMPurify that the module calls but
    does not define, and the build flag it reads.  The model is parametric
    in them. *)
Class Platform : Type := {
  (** [DOMPurify.sanitize(s, {ALLOWED_TAGS: [], ALLOWED_ATTR: []})] *)
  DOMPurify_sanitize : string -> string;
  (** [String.prototype.trim] *)
  trim : string -> string;
  (** [JSON.parse]; [None] when it throws *)
  JSON_parse : string -> option json;
  (** [JSON.stringify] *)
  JSON_stringify : json -> string;
  (** string conversion of a value that is not a string (template
      literals, the [Error] constructor) *)
  ToString : json -> string;
  (** numeric conversion of a string ([Number(s)]) *)
  StringToNumber : string -> jsnum;
  (** [parseInt(s)] *)
  parseInt : string -> jsnum;
  (** what [new Date(s)] yields for a string that is not a valid
      ISO calendar date (implementation-defined); [None] is an invalid
      date *)
  Date_parse_legacy : string -> option Z;
  (** whether [Array.prototype] has a property of that name (map, at,
      toSorted, ...: the set grows with the edition of the language the
      engine implements) *)
  Array_prototype_has : string -> bool;
  (** [import.meta.env.PROD]: whether this is a production build *)
  IS_PRODUCTION : bool;
  (** the message of the TypeError that [JSON.stringify] throws on a
      BigInt *)
  BigInt_serialize_error : string
}.

(** ** Constants of the module *)

Definition MAX_RETRY_ATTEMPTS : Z := 3.
Definition RETRY_DELAY : Z := 1000.

Definition ENDPOINT_HEALTH : string := "/api/health".
Definition ENDPOINT_SCRAPE : string := "/api/scrape".
Definition ENDPOINT_STATUS : string := "/api/status".
Definition ENDPOINT_RESULTS : string := "/api/results".
Definition ENDPOINT_STOP : string := "/api/stop".

(** The [options] argument of [makeRequest]: the callers of this module
    set [method] and, for the start request, a string [body]. *)
Record Options : Type := mkOptions {
  opt_method : option string;
  opt_body : option string
}.

(** What [fetch] hands back once the response head has arrived.  The two
    body readers are given by their completions ([response.json()] and
    [response.text()] may reject). *)
Record Response : Type := mkResponse {
  resp_status : Z;
  resp_statusText : string;
  resp_retryAfter : option string;
  resp_contentType : option string;
  resp_json : completion json;
  resp_text : completion string
}.

(** [response.ok] *)
Definition resp_ok (r : Response) : bool :=
  (200 <=? resp_status r) && (resp_status r <=? 299).

(** The settlement of one [fetch] call: a response, or a rejection (an
    AbortError when the timeout controller fires, a TypeError when the
    server cannot be reached). *)
Inductive FetchResult : Type :=
| Responded (r : Response)
| Rejected (e : JsError).

(** Observable actions of a run, in order: [fetch(API_BASE_URL + url,
    {method, body, ...})], [await delay(ms)], [setTimeout(poll, ms)] and a
    call of the progress callback. *)
Inductive event : Type :=
| Fetch (url : string) (method : option string) (body : option string)
| Sleep (ms : Z)
| Timer (ms : Z)
| Progress (payload : json).

Definition is_fetch (e : event) : bool :=
  match e with Fetch _ _ _ => true | _ => false end.

(** Number of network requests dispatched so far. *)
Fixpoint fetches (tr : list event) : nat :=
  match tr with
  | [] => O
  | e :: rest => ((if is_fetch e then 1 else 0) + fetches rest)%nat
  end.

(** The wait that immediately precedes the k-th request of a trace
    (attempts are counted from 1), if there is one. *)
Fixpoint delay_scan (k : nat) (last : option Z) (tr : list event) : option Z :=
  match tr with
  | [] => None
  | Fetch _ _ _ :: rest =>
      match k with
      | O => None
      | 1%nat => last
      | S k' => delay_scan k' None rest
      end
  | Sleep ms :: rest => delay_scan k (Some ms) rest
  | _ :: rest => delay_scan k last rest
  end.

Definition delay_before (k : nat) (tr : list event) : option Z :=
  delay_scan k None tr.

(** Number of requests sent to one endpoint. *)
Definition fetch_to (url : string) (e : event) : bool :=
  match e with
  | Fetch u _ _ => String.eqb u url
  | _ => false
  end.

Fixpoint calls_to (url : string) (tr : list event) : nat :=
  match tr with
  | [] => O
  | e :: rest => ((if fetch_to url e then 1 else 0) + calls_to url rest)%nat
  end.

Definition opt_truthy (o : option string) : bool :=
  match o with
  | Some s => negb (String.eqb s "")
  | None => false
  end.

(** No object of the value has a field named __proto__.  On that name the
    assignment [sanitized[key] = ...] of [sanitizeInput] reaches the
    prototype setter instead of creating a property, and the result is an
    object with another prototype, which is not a value of [json]. *)
Fixpoint proto_free (v : json) : bool :=
  match v with
  | JArr items => forallb proto_free items
  | JObj fields =>
      forallb (fun kv : (string * json)%type =>
                 let (k, x) := kv in
                 negb (String.eqb k "__proto__") && proto_free x) fields
  | _ => true
  end.

(** The strings of a value, at any depth (field names are not among them:
    [sanitizeInput] leaves them alone). *)
Fixpoint strings_of (v : json) : list string :=
  match v with
  | JStr s => [s]
  | JArr items => flat_map strings_of items
  | JObj fields =>
      flat_map (fun kv : (string * json)%type => let (_, x) := kv in strings_of x) fields
  | _ => []
  end.

(** The property names of [Object.prototype] (the language standard with
    its annex for browsers): what every plain object inherits. *)
Definition Object_prototype_names : list string :=
  ["constructor"; "hasOwnProperty"; "isPrototypeOf"; "propertyIsEnumerable";
   "toLocaleString"; "toString"; "valueOf"; "__proto__"; "__defineGetter__";
   "__defineSetter__"; "__lookupGetter__"; "__lookupSetter__"].

(** What a caller can pass where the module expects a date: a JSON-like
    value, or a BigInt (a value that [JSON.stringify] refuses). *)
Inductive Argument : Type :=
| Plain (v : json)
| BigInt (n : Z).

(** The [data] argument of [safeLog]: an object literal, whose fields may
    hold a caller's argument, or a value of the module's own. *)
Inductive LogData : Type :=
| LogFields (fields : list (string * Argument))
| LogValue (v : json).

(** Whether [JSON.stringify] returns on the logged data. *)
Definition serialisable (data : LogData) : bool :=
  match data with
  | LogFields fields =>
      forallb (fun kv : (string * Argument)%type =>
                 match snd kv with Plain _ => true | BigInt _ => false end) fields
  | LogValue _ => true
  end.

(** [error.status] as a value: the number of an ApiError, [undefined] on
    any other error. *)
Definition status_field (e : JsError) : json :=
  match error_status e with
  | Some s => JNum (num s)
  | None => JUndefined
  end.

Section Service.
Context `{Platform}.

(** [sanitizeInput]: strings are trimmed and purified, arrays and objects
    are rebuilt element by element, everything else is returned as is.
    This is the source's function on the values that are [proto_free]. *)
Fixpoint sanitizeInput (input : json) : json :=
  match input with
  | JStr s => JStr (DOMPurify_sanitize (trim s))
  | JArr items => JArr (List.map sanitizeInput items)
  | JObj fields =>
      JObj (List.map (fun kv : (string * json)%type =>
                      let (k, v) := kv in (k, sanitizeInput v)) fields)
  | other => other
  end.

(** The own property names of an array of [n] elements besides [length]:
    the decimal numerals below [n]. *)
Definition is_index (k : string) (n : nat) : bool :=
  existsb (fun i : nat => String.eqb k (pretty i)) (seq 0%nat n).

(** Whether [Object.prototype] has a property of that name. *)
Definition Object_prototype_has (k : string) : bool :=
  existsb (String.eqb k) Object_prototype_names.

(** [k in v] for an object or an array: an own property or one found on
    the prototype chain.  (On any other value the operator throws; its one
    use, in [validateResponse], comes after the [typeof] test.) *)
Definition has_key (k : string) (v : json) : bool :=
  match v with
  | JObj fs =>
      match assoc k fs with Some _ => true | None => false end
      || Object_prototype_has k
  | JArr items =>
      is_index k (length items) || String.eqb k "length"
      || Array_prototype_has k || Object_prototype_has k
  | _ => false
  end.

(** String conversion of any value. *)
Definition js_string (v : json) : string :=
  match v with
  | JStr s => s
  | other => ToString other
  end.

(** [validateResponse(response, expectedKeys)] *)
Fixpoint missing_key (response : json) (expectedKeys : list string) : option string :=
  match expectedKeys with
  | [] => None
  | key :: rest =>
      if has_key key response then missing_key response rest else Some key
  end.

Definition validateResponse (response : json) (expectedKeys : list string)
  : completion bool :=
  if negb (truthy response) || negb (typeof_object response) then
    Throw (ApiError "Invalid response format" 0 JNull)
  else
    match missing_key response expectedKeys with
    | Some key => Throw (ApiError ("Missing required field: " +:+ key) 0 JNull)
    | None => Return true
    end.

(** [getRequestKey(url, options)] *)
Definition getRequestKey (url : string) (options : Options) : string :=
  (if opt_truthy (opt_method options)
   then default "GET" (opt_method options) else "GET")
  +:+ ":" +:+ url +:+ ":" +:+
  JSON_stringify (if opt_truthy (opt_body options)
                  then JStr (default "" (opt_body options)) else JObj []).

(** Lines 100-108 of [makeRequest]: the body is re-encoded after
    sanitising, or sanitised as a plain string when it is not JSON. *)
Definition sanitize_body (body : option string) : option string :=
  match body with
  | Some s =>
      if String.eqb s "" then Some s
      else match JSON_parse s with
           | Some bodyData => Some (JSON_stringify (sanitizeInput bodyData))
           | None => Some (DOMPurify_sanitize (trim s))
           end
  | None => None
  end.

(** The part of the request closure that runs once [fetch] has produced a
    response: status 429, other non-2xx statuses, and decoding.  (Reading
    [error] off a decoded [null] throws inside the inner [try]; the default
    message and the unsanitised data are then kept.) *)
Definition on_response (r : Response) : completion json :=
  if resp_status r =? 429 then
    let retryDelay :=
      if opt_truthy (resp_retryAfter r)
      then times_const (parseInt (default "" (resp_retryAfter r))) 1000
      else num 5000 in
    Throw (ApiError
             ("Rate limited. Please wait "
              +:+ ToString (JNum (Math_ceil (div_const retryDelay 1000)))
              +:+ " seconds.") 429 JNull)
  else if negb (resp_ok r) then
    let errorMessage :=
      "HTTP " +:+ ToString (JNum (num (resp_status r))) +:+ ": "
      +:+ resp_statusText r in
    match resp_json r with
    | Return JNull => Throw (ApiError errorMessage (resp_status r) JNull)
    | Return JUndefined => Throw (ApiError errorMessage (resp_status r) JUndefined)
    | Return errorData =>
        Throw (ApiError
                 (js_string
                    (sanitizeInput
                       (js_or (get "error" errorData)
                          (js_or (get "message" errorData) (JStr errorMessage)))))
                 (resp_status r) (sanitizeInput errorData))
    | Throw _ => Throw (ApiError errorMessage (resp_status r) JNull)
    end
  else
    if opt_truthy (resp_contentType r)
       && includes (default "" (resp_contentType r)) "application/json"
    then match resp_json r with
         | Return responseData => Return (sanitizeInput responseData)
         | Throw e => Throw e
         end
    else match resp_text r with
         | Return responseData => Return (JStr (DOMPurify_sanitize (trim responseData)))
         | Throw e => Throw e
         end.

(** The [catch] clause of the request closure. *)
Definition convert_error (error : JsError) : JsError :=
  if String.eqb (error_name error) "AbortError" then
    ApiError "Request timeout - server is taking too long to respond" 408 JNull
  else if instanceof_ApiError error then error
  else if String.eqb (error_name error) "TypeError"
          && includes (error_message error) "fetch" then
    ApiError "Unable to connect to server. Please check if the server is running."
      0 JNull
  else
    let m := DOMPurify_sanitize (trim (error_message error)) in
    ApiError (if String.eqb m "" then "An unexpected error occurred" else m) 0 JNull.

(** The outcome with which the request promise settles, given how its
    [fetch] settled. *)
Definition settle_request (fr : FetchResult) : completion json :=
  match match fr with
        | Responded r => on_response r
        | Rejected e => Throw e
        end with
  | Return v => Return v
  | Throw e => Throw (convert_error e)
  end.

(** ** Dates *)

Definition is_digit (c : ascii) : bool :=
  (48 <=? Z.of_nat (nat_of_ascii c)) && (Z.of_nat (nat_of_ascii c) <=? 57).

Definition digit_val (c : ascii) : Z := Z.of_nat (nat_of_ascii c) - 48.

(** The regular expression [/^\d{4}-\d{2}-\d{2}$/]; on a match, the three
    numbers. *)
Definition match_date (s : string) : option (Z * Z * Z) :=
  match list_ascii_of_string s with
  | [y1; y2; y3; y4; h1; m1; m2; h2; d1; d2] =>
      if forallb is_digit [y1; y2; y3; y4; m1; m2; d1; d2]
         && Ascii.eqb h1 "-" && Ascii.eqb h2 "-"
      then Some (1000 * digit_val y1 + 100 * digit_val y2
                 + 10 * digit_val y3 + digit_val y4,
                 10 * digit_val m1 + digit_val m2,
                 10 * digit_val d1 + digit_val d2)
      else None
  | _ => None
  end.

Definition date_regex_test (s : string) : bool :=
  match match_date s with Some _ => true | None => false end.

Definition is_leap (y : Z) : bool :=
  ((y mod 4 =? 0) && negb (y mod 100 =? 0)) || (y mod 400 =? 0).

Definition days_in_month (y m : Z) : Z :=
  if m =? 2 then (if is_leap y then 29 else 28)
  else if (m =? 4) || (m =? 6) || (m =? 9) || (m =? 11) then 30
  else 31.

Definition valid_date (y m d : Z) : bool :=
  (1 <=? m) && (m <=? 12) && (1 <=? d) && (d <=? days_in_month y m).

(** Day number of a calendar date, counted from 1970-01-01. *)
Definition days_from_civil (y m d : Z) : Z :=
  let y' := if m <=? 2 then y - 1 else y in
  let mp := (m + 9) mod 12 in
  365 * y' + y' / 4 - y' / 100 + y' / 400 + (153 * mp + 2) / 5 + d - 1 - 719468.

Definition MS_PER_DAY : Z := 86400000.

(** [new Date(s).getTime()]: a date-only ISO string is midnight UTC of that
    day; [None] stands for NaN. *)
Definition new_Date (s : string) : option Z :=
  match match_date s with
  | Some (y, m, d) =>
      if valid_date y m d then Some (days_from_civil y m d * MS_PER_DAY)
      else Date_parse_legacy s
  | None => Date_parse_legacy s
  end.

(** [a > b] and [a < b] on time values; comparisons with NaN are false. *)
Definition time_gt (a b : option Z) : bool :=
  match a, b with
  | Some x, Some y => y <? x
  | _, _ => false
  end.

Definition time_lt (a b : option Z) : bool := time_gt b a.

(** ** Requests against a network oracle

    In a run where no other caller has the same request in flight, every
    [makeRequest] dispatches its own [fetch]; the oracle gives the
    settlement of the n-th dispatched request.  The oracle is total: every
    dispatched request is taken to settle (with a response, an abort or a
    network error). *)

Section Sequential.
Variable oracle : nat -> FetchResult.

(** [makeRequest(url, options)]: the completion, the [options] object as
    the call leaves it (its body is overwritten by the sanitised one), and
    the extended trace. *)
Definition makeRequest (url : string) (options : Options) (tr : list event)
  : completion json * Options * list event :=
  if String.eqb url "" then
    (Throw (ApiError "Invalid URL provided" 400 JNull), options, tr)
  else
    let options' := mkOptions (opt_method options) (sanitize_body (opt_body options)) in
    (settle_request (oracle (fetches tr)), options',
     tr ++ [Fetch url (opt_method options') (opt_body options')]).

Definition shouldRetry (error : JsError) : bool :=
  match error_status error with
  | Some s => (s =? 0) || (500 <=? s)
  | None => false
  end
  || String.eqb (error_name error) "AbortError".

(** [RETRY_DELAY * Math.pow(2, attempt - 1)], for [attempt >= 1]. *)
Definition retryDelay (attempt : Z) : Z := RETRY_DELAY * 2 ^ (attempt - 1).

(** [makeRequestWithRetry(url, options, attempt)]; [fuel] bounds the
    depth of the recursion, [None] means it was used up. *)
Fixpoint makeRequestWithRetry_from (fuel : nat) (url : string) (options : Options)
    (attempt : Z) (tr : list event)
  : option (completion json * list event) :=
  match fuel with
  | O => None
  | S fuel' =>
      match makeRequest url options tr with
      | (Return v, _, tr') => Some (Return v, tr')
      | (Throw error, options', tr') =>
          if MAX_RETRY_ATTEMPTS <=? attempt then Some (Throw error, tr')
          else if negb (shouldRetry error) then Some (Throw error, tr')
          else makeRequestWithRetry_from fuel' url options' (attempt + 1)
                 (tr' ++ [Sleep (retryDelay attempt)])
      end
  end.

(** The call with the default [attempt = 1]. *)
Definition makeRequestWithRetry (url : string) (options : Options) (tr : list event)
  : option (completion json * list event) :=
  makeRequestWithRetry_from (Z.to_nat MAX_RETRY_ATTEMPTS) url options 1 tr.

(** ** The job operations *)

(** The object every [catch] clause of the operations returns. *)
Definition failure (error : JsError) : json :=
  JObj [("success", JBool false);
        ("error", JStr (error_message error));
        ("status", JNum (num (status_or_zero error)))].

Definition success (data : json) (message : string) : json :=
  JObj [("success", JBool true); ("data", data); ("message", JStr message)].

(** Sequencing of completions: the rest of a [try] block is skipped
    once something has been thrown. *)
Definition andThen {A B : Type} (c : completion A) (k : A -> completion B)
  : completion B :=
  match c with
  | Return a => k a
  | Throw e => Throw e
  end.

(** [try { ... } catch (error) { ... handler ... }] *)
Definition tryCatch (c : completion json) (handler : JsError -> completion json)
  : completion json :=
  match c with
  | Return v => Return v
  | Throw e => handler e
  end.

(** [safeLog(level, message, data)]: nothing in a production build;
    otherwise the data is serialised and written to the console.  The
    console is not observed here; what can be observed is the exception of
    [JSON.stringify] when the data cannot be serialised. *)
Definition safeLog (level message : string) (data : LogData) : completion unit :=
  if IS_PRODUCTION then Return tt
  else if serialisable data then Return tt
  else Throw (NativeError "TypeError" BigInt_serialize_error).

(** [catch (error) { safeLog('error', message, data); return failure(error) }] *)
Definition report (message : string) (data : LogData) (error : JsError)
  : completion json :=
  andThen (safeLog "error" message data) (fun _ => Return (failure error)).

(** The fields [{ error: error.message, status: error.status }] that most
    catch clauses log. *)
Definition error_fields (error : JsError) : list (string * Argument) :=
  [("error", Plain (JStr (error_message error))); ("status", Plain (status_field error))].

Definition checkHealth (tr : list event) : option (completion json * list event) :=
  match makeRequestWithRetry ENDPOINT_HEALTH (mkOptions (Some "GET") None) tr with
  | None => None
  | Some (c, tr') =>
      Some (tryCatch
              (andThen c (fun response =>
               andThen (validateResponse response ["status"]) (fun _ =>
               andThen (safeLog "info" "API Health Check Success"
                          (LogFields [("status", Plain (get "status" response));
                                      ("timestamp", Plain (get "timestamp" response))]))
                 (fun _ =>
               Return (success response "Server is healthy")))))
              (fun error =>
                 report "API Health Check Failed"
                   (LogFields [("message", Plain (JStr (error_message error)));
                               ("status", Plain (status_field error))]) error),
            tr')
  end.

(** The local checks of [startScraping], up to the network call: the
    sanitised date on acceptance. *)
Definition check_date (date : json) (now : Z) : completion string :=
  match sanitizeInput date with
  | JStr sanitizedDate =>
      if String.eqb sanitizedDate "" then Throw (ApiError "Date is required" 400 JNull)
      else if negb (date_regex_test sanitizedDate) then
        Throw (ApiError "Invalid date format. Please use YYYY-MM-DD format." 400 JNull)
      else
        let dateObj := new_Date sanitizedDate in
        let today := Some now in
        let minDate := new_Date "2010-01-01" in
        match dateObj with
        | None => Throw (ApiError "Invalid date provided" 400 JNull)
        | Some _ =>
            if time_gt dateObj today then
              Throw (ApiError "Date cannot be in the future" 400 JNull)
            else if time_lt dateObj minDate then
              Throw (ApiError "Date cannot be before 2010" 400 JNull)
            else Return sanitizedDate
        end
  | _ => Throw (ApiError "Date is required" 400 JNull)
  end.

(** The same checks on any argument: [sanitizeInput] returns a BigInt as
    it is (it is no string, array or object), and the first check refuses
    what is not a string. *)
Definition check_argument (date : Argument) (now : Z) : completion string :=
  match date with
  | Plain v => check_date v now
  | BigInt _ => Throw (ApiError "Date is required" 400 JNull)
  end.

(** [startScraping(date)], called when the clock reads [now]
    (milliseconds since the epoch).  The catch clause logs the argument as
    it was passed. *)
Definition startScraping_any (date : Argument) (now : Z) (tr : list event)
  : option (completion json * list event) :=
  let handler := fun error =>
    report "Failed to Start Scraping" (LogFields (("date", date) :: error_fields error))
      error in
  match check_argument date now with
  | Throw e => Some (handler e, tr)
  | Return sanitizedDate =>
      match makeRequestWithRetry ENDPOINT_SCRAPE
              (mkOptions (Some "POST")
                 (Some (JSON_stringify (JObj [("date", JStr sanitizedDate)])))) tr with
      | None => None
      | Some (c, tr') =>
          Some (tryCatch
                  (andThen c (fun response =>
                   andThen (validateResponse response ["message"]) (fun _ =>
                   andThen (safeLog "info" "Scraping Started"
                              (LogFields [("date", Plain (JStr sanitizedDate));
                                          ("message", Plain (get "message" response))]))
                     (fun _ =>
                   Return (success response "Scraping started successfully")))))
                  handler, tr')
      end
  end.

(** [startScraping(date)] on a JSON-like value. *)
Definition startScraping (date : json) (now : Z) (tr : list event)
  : option (completion json * list event) :=
  startScraping_any (Plain date) now tr.

(** [Number(v)] *)
Definition Number (v : json) : jsnum :=
  match v with
  | JUndefined => NaN
  | JNull => num 0
  | JBool b => if b then num 1 else num 0
  | JNum n => n
  | JStr s => StringToNumber s
  | other => StringToNumber (ToString other)
  end.

(** [Math.max(0, Math.min(100, Number(v) || 0))] *)
Definition clamp_progress (v : json) : jsnum :=
  let n := Number v in
  Math_max (num 0) (Math_min (num 100) (if truthy (JNum n) then n else num 0)).

Definition getScrapingStatus (tr : list event) : completion json * list event :=
  match makeRequest ENDPOINT_STATUS (mkOptions (Some "GET") None) tr with
  | (c, _, tr') =>
      (tryCatch
         (andThen c (fun response =>
          andThen (validateResponse response ["is_running"]) (fun _ =>
          Return (JObj [("success", JBool true);
                        ("data", response);
                        ("isRunning", JBool (truthy (get "is_running" response)));
                        ("progress", JNum (clamp_progress (get "progress" response)));
                        ("message",
                         js_or (sanitizeInput (get "message" response))
                               (JStr "Status retrieved successfully"))]))))
         (fun error =>
            andThen (safeLog "error" "Failed to Get Status"
                       (LogFields (error_fields error))) (fun _ =>
            Return (JObj [("success", JBool false);
                          ("error", JStr (error_message error));
                          ("status", JNum (num (status_or_zero error)));
                          ("isRunning", JBool false);
                          ("progress", JNum (num 0))]))),
       tr')
  end.

(** [response.success === true] *)
Definition is_true (v : json) : bool :=
  match v with JBool true => true | _ => false end.

Definition getResults (tr : list event) : completion json * list event :=
  match makeRequest ENDPOINT_RESULTS (mkOptions (Some "GET") None) tr with
  | (c, _, tr') =>
      (tryCatch
         (andThen c (fun response =>
          if negb (truthy response && typeof_object response
                   && is_true (get "success" response)
                   && isArray (get "orders" response))
          then Throw (ApiError "Results not ready" 202 JNull)
          else
            andThen (safeLog "info" "Results Retrieved"
                       (LogFields
                          [("totalAwards", Plain (get "total_awards" response));
                           ("totalValue", Plain (get "total_value_crores" response));
                           ("date", Plain (get "date" response))])) (fun _ =>
            Return (success response "Results retrieved successfully"))))
         (fun error =>
            report "Failed to Get Results" (LogFields (error_fields error)) error),
       tr')
  end.

Definition stopScraping (tr : list event) : completion json * list event :=
  match makeRequest ENDPOINT_STOP (mkOptions (Some "POST") None) tr with
  | (c, _, tr') =>
      (tryCatch
         (andThen c (fun response =>
          andThen (safeLog "info" "Scraping Stopped" (LogValue response)) (fun _ =>
          Return (success response "Scraping stopped successfully"))))
         (fun error =>
            report "Failed to Stop Scraping" (LogFields (error_fields error)) error),
       tr')
  end.

(** ** The polling loop *)

Definition maxPolls : Z := 300.

(** The [onProgress] argument: a falsy value, a function, or some other
    truthy value.  A callback only observes: it dispatches no request. *)
Inductive Handler : Type :=
| NoHandler
| FunctionHandler
| NotAFunction.

(** Where the loop stands between two runs of its [poll] closure: the
    closure is due to run (again) with the given counter, or the promise
    has been resolved. *)
Inductive LoopState : Type :=
| Scheduled (pollCount : Z)
| Resolved (outcome : json).

(** [Math.max(1000, Math.min(10000, pollInterval))] *)
Definition safePollInterval (pollInterval : Z) : Z :=
  Z.max 1000 (Z.min 10000 pollInterval).

(** The [catch] clause of the [poll] closure:
    [{success: false, error: error.message || 'Polling failed', status: 0}] *)
Definition polling_failed (error : JsError) : json :=
  JObj [("success", JBool false);
        ("error", JStr (if String.eqb (error_message error) ""
                        then "Polling failed" else error_message error));
        ("status", JNum (num 0))].

(** One run of the [poll] closure. *)
Definition tick (onProgress : Handler) (interval : Z) (pollCount : Z)
    (tr : list event) : LoopState * list event :=
  let pollCount := pollCount + 1 in
  if maxPolls <? pollCount then
    (Resolved (JObj [("success", JBool false);
                     ("error", JStr "Polling timeout - operation took too long");
                     ("status", JNum (num 408))]), tr)
  else
    match getScrapingStatus tr with
    | (Throw e, tr1) => (Resolved (polling_failed e), tr1)
    | (Return statusResponse, tr1) =>
    if negb (truthy (get "success" statusResponse)) then
      (Resolved (JObj [("success", JBool false);
                       ("error", get "error" statusResponse);
                       ("status", get "status" statusResponse)]), tr1)
    else
      let data := get "data" statusResponse in
      let isRunning := get "isRunning" statusResponse in
      let progress := get "progress" statusResponse in
      let tr2 :=
        match onProgress with
        | FunctionHandler =>
            tr1 ++ [Progress (JObj [("isRunning", isRunning);
                                    ("progress", progress);
                                    ("message", get "message" data);
                                    ("error", get "error" data)])]
        | _ => tr1
        end in
      if negb (truthy isRunning) then
        if truthy (get "error" data) then
          (Resolved (JObj [("success", JBool false);
                           ("error", get "error" data);
                           ("message", get "message" data)]), tr2)
        else if truthy (get "results" data) then
          (Resolved (JObj [("success", JBool true);
                           ("data", get "results" data);
                           ("message", JStr "Scraping completed successfully")]), tr2)
        else
          match getResults tr2 with
          | (Throw e, tr3) => (Resolved (polling_failed e), tr3)
          | (Return resultsResponse, tr3) =>
              if negb (truthy (get "success" resultsResponse)) then
                (Scheduled pollCount, tr3 ++ [Timer interval])
              else (Resolved resultsResponse, tr3)
          end
      else (Scheduled pollCount, tr2 ++ [Timer interval])
    end.


(** The closure run again and again, each pending timer firing in turn;
    [None] when [fuel] runs are not enough. *)
Fixpoint poll (fuel : nat) (onProgress : Handler) (interval : Z) (pollCount : Z)
    (tr : list event) : option (json * list event) :=
  match fuel with
  | O => None
  | S fuel' =>
      match tick onProgress interval pollCount tr with
      | (Resolved outcome, tr') => Some (outcome, tr')
      | (Scheduled pollCount', tr') => poll fuel' onProgress interval pollCount' tr'
      end
  end.

(** [pollScrapingProgress(onProgress, pollInterval)]: the settlement of
    the promise it returns. *)
Definition pollScrapingProgress (onProgress : Handler) (pollInterval : Z)
    (tr : list event) : option (completion json * list event) :=
  match onProgress with
  | NotAFunction =>
      Some (Throw (ApiError "onProgress must be a function" 400 JNull), tr)
  | _ =>
      match poll (S (Z.to_nat maxPolls)) onProgress
              (safePollInterval pollInterval) 0 tr with
      | Some (outcome, tr') => Some (Return outcome, tr')
      | None => None
      end
  end.

(** ** The cancel handler of App.jsx *)

(** The component state that [handleCancel] reads and resets. *)
Record AppState : Type := mkApp {
  appState : string;
  loading : bool;
  progress : Z;
  progressMessage : string;
  error : string;
  results : json;
  jobId : json
}.

(** [handleCancel]: stop the job when a job id is known, then reset the
    component; should the stop call throw, only the error text is set.  The
    handler holds no reference to a running polling loop. *)
Definition handleCancel (app : AppState) (tr : list event)
  : AppState * list event :=
  let idle := mkApp "idle" false 0 "" "" JNull JNull in
  if truthy (jobId app) then
    match stopScraping tr with
    | (Return _, tr') => (idle, tr')
    | (Throw err, tr') =>
        (mkApp (appState app) (loading app) (progress app) (progressMessage app)
           ("Failed to cancel operation: " +:+ error_message err)
           (results app) (jobId app), tr')
    end
  else (idle, tr).





End Sequential.

(** ** The in-flight registry of [makeRequest]

    Several callers may be suspended at once; a world records the
    [activeRequests] map, every request promise created so far, and the
    requests handed to [fetch]. *)

Inductive PromiseState : Type :=
| Pending (requestKey : string)
| Settled (outcome : completion json).

Record World : Type := mkWorld {
  activeRequests : gmap string nat;
  promises : list PromiseState;
  network : list event
}.

Definition empty_world : World := mkWorld ∅ [] [].

(** What a caller of [makeRequest] holds: an immediate rejection, or a
    promise that follows request promise [p]. *)
Inductive Handle : Type :=
| Fails (e : JsError)
| Follows (p : nat).

(** The synchronous part of [makeRequest(url, options)]. *)
Definition makeRequest_call (url : string) (options : Options) (w : World)
  : Handle * World :=
  if String.eqb url "" then (Fails (ApiError "Invalid URL provided" 400 JNull), w)
  else
    let requestKey := getRequestKey url options in
    match activeRequests w !! requestKey with
    | Some p => (Follows p, w)
    | None =>
        let p := length (promises w) in
        (Follows p,
         mkWorld (<[requestKey := p]> (activeRequests w))
                 (promises w ++ [Pending requestKey])
                 (network w ++ [Fetch url (opt_method options)
                                  (sanitize_body (opt_body options))]))
    end.

(** The request of promise [p] settles: the closure computes its outcome
    and its [finally] clause removes the key. *)
Definition makeRequest_settle (p : nat) (fr : FetchResult) (w : World) : World :=
  match promises w !! p with
  | Some (Pending requestKey) =>
      mkWorld (delete requestKey (activeRequests w))
              (<[p := Settled (settle_request fr)]> (promises w))
              (network w)
  | _ => w
  end.

(** What the holder of a handle has received so far. *)
Definition received (h : Handle) (w : World) : option (completion json) :=
  match h with
  | Fails e => Some (Throw e)
  | Follows p =>
      match promises w !! p with
      | Some (Settled c) => Some c
      | _ => None
      end
  end.

Inductive Action : Type :=
| Call (url : string) (options : Options)
| Settle (p : nat) (fr : FetchResult).

Definition act (a : Action) (w : World) : World :=
  match a with
  | Call url options => snd (makeRequest_call url options w)
  | Settle p fr => makeRequest_settle p fr w
  end.

Definition run (acts : list Action) (w : World) : World :=
  fold_left (fun w a => act a w) acts w.

Definition settles (p : nat) (a : Action) : bool :=
  match a with
  | Settle q _ => Nat.eqb p q
  | Call _ _ => false
  end.

(** ** Observations used in the statements *)

(** The two shapes of a result object: [{success: true, data, message}],
    and [{success: false, error, status}] with a string [error] and a numeric
    [status] that is 0 when the error carries none. *)
Definition result_shape (r : json) : Prop :=
  (exists data message, r = success data message)
  \/ (exists e, r = failure e).

(** Status polls and result requests in a trace. *)
Definition status_polls (tr : list event) : nat := calls_to ENDPOINT_STATUS tr.
Definition results_calls (tr : list event) : nat := calls_to ENDPOINT_RESULTS tr.



(** What the caller of the loop can be handed: success with a payload, or
    failure with an error. *)
Definition terminal_outcome (r : json) : Prop :=
  (get "success" r = JBool true /\ has_key "data" r = true)
  \/ (get "success" r = JBool false /\ has_key "error" r = true).

Definition timeout_outcome : json :=
  JObj [("success", JBool false);
        ("error", JStr "Polling timeout - operation took too long");
        ("status", JNum (num 408))].

(** Every registered key points at a pending promise created for that
    key, and every pending promise is registered under its key: at most
    one request is in flight per key.  Each promise has dispatched exactly
    one request. *)
Definition registry_inv (w : World) : Prop :=
  (forall key p, activeRequests w !! key = Some p ->
                 promises w !! p = Some (Pending key))
  /\ (forall key p, promises w !! p = Some (Pending key) ->
                    activeRequests w !! key = Some p)
  /\ length (network w) = length (promises w).

Definition reachable (w : World) : Prop :=
  exists acts, w = run acts empty_world.

End Service.

(** ** A platform to run the model on

    Enough of a browser for the plain ASCII examples below: markup-free
    text passes the purifier unchanged, [trim] drops ASCII white space,
    decimal digit strings convert to numbers.  Request bodies are treated
    as plain text and only integers are printed; no example depends on
    either. *)

Definition is_space (c : ascii) : bool :=
  let n := nat_of_ascii c in
  Nat.eqb n 32 || (Nat.leb 9 n && Nat.leb n 13).

Fixpoint drop_spaces (l : list ascii) : list ascii :=
  match l with
  | c :: rest => if is_space c then drop_spaces rest else l
  | [] => []
  end.

Definition demo_trim (s : string) : string :=
  string_of_list_ascii
    (rev (drop_spaces (rev (drop_spaces (list_ascii_of_string s))))).

Definition demo_number (s : string) : jsnum :=
  let l := list_ascii_of_string s in
  match l with
  | [] => NaN
  | _ => if forallb is_digit l
         then num (fold_left (fun acc c => 10 * acc + digit_val c) l 0)
         else NaN
  end.

Definition show_num (n : jsnum) : string :=
  match n with
  | NaN => "NaN"
  | PosInf => "Infinity"
  | NegInf => "-Infinity"
  | Fin q => pretty (Qnum (this q) / Zpos (Qden (this q)))
  end.

Definition quote : string := String (ascii_of_nat 34) "".

Fixpoint join (l : list string) : string :=
  match l with
  | [] => ""
  | [x] => x
  | x :: rest => x +:+ "," +:+ join rest
  end.

Fixpoint demo_stringify (v : json) : string :=
  match v with
  | JUndefined | JNull => "null"
  | JBool true => "true"
  | JBool false => "false"
  | JNum n => show_num n
  | JStr s => quote +:+ s +:+ quote
  | JArr items => "[" +:+ join (List.map demo_stringify items) +:+ "]"
  | JObj fields =>
      "{" +:+ join (List.map (fun kv : (string * json)%type =>
                                let (k, x) := kv in
                                quote +:+ k +:+ quote +:+ ":" +:+ demo_stringify x)
                      fields) +:+ "}"
  end.

(** The property names of [Array.prototype] in ECMAScript 2023. *)
Definition Array_prototype_names : list string :=
  ["length"; "constructor"; "at"; "concat"; "copyWithin"; "entries"; "every"; "fill";
   "filter"; "find"; "findIndex"; "findLast"; "findLastIndex"; "flat"; "flatMap";
   "forEach"; "includes"; "indexOf"; "join"; "keys"; "lastIndexOf"; "map"; "pop";
   "push"; "reduce"; "reduceRight"; "reverse"; "shift"; "slice"; "some"; "sort";
   "splice"; "toLocaleString"; "toReversed"; "toSorted"; "toSpliced"; "toString";
   "unshift"; "values"; "with"].

#[local] Instance demo_platform : Platform := {|
  DOMPurify_sanitize := fun s => s;
  trim := demo_trim;
  JSON_parse := fun _ => None;
  JSON_stringify := demo_stringify;
  ToString := demo_stringify;
  StringToNumber := demo_number;
  parseInt := demo_number;
  Date_parse_legacy := fun _ => None;
  Array_prototype_has := fun k => existsb (String.eqb k) Array_prototype_names;
  IS_PRODUCTION := false;
  BigInt_serialize_error := "Do not know how to serialize a BigInt"
|}.

(** Responses used in the examples. *)
Definition json_response (status : Z) (body : json) : FetchResult :=
  Responded (mkResponse status "" None (Some "application/json")
               (Return body) (Return "")).

Definition running (progress : Z) : FetchResult :=
  json_response 200
    (JObj [("is_running", JBool true); ("progress", JNum (num progress))]).

Definition aborted : FetchResult :=
  Rejected (NativeError "AbortError" "The operation was aborted.").

(** Inputs of the example runs. *)
Definition get_options : Options := mkOptions (Some "GET") None.

Definition server_error : FetchResult :=
  Responded (mkResponse 500 "Internal Server Error" None (Some "application/json")
               (Return JNull) (Return "")).




(** * Properties *)

Section Properties.
Context `{Platform}.

(** ** Logging

    On data of the module's own (strings, numbers, fields of a decoded
    response) the logger returns, in every build; the operations then
    behave as if the logging calls were not there. *)

Lemma safeLog_serialisable (level message : string) (data : LogData) :
  serialisable data = true -> safeLog level message data = Return tt.
Proof. intros Hs. unfold safeLog. rewrite Hs. destruct IS_PRODUCTION; reflexivity. Qed.

Lemma report_serialisable (message : string) (data : LogData) (error : JsError) :
  serialisable data = true -> report message data error = Return (failure error).
Proof. intros Hs. unfold report. rewrite (safeLog_serialisable _ _ _ Hs). reflexivity. Qed.

Ltac quiet_log :=
  unfold report; rewrite ?safeLog_serialisable by reflexivity; cbn [andThen].

Lemma checkHealth_plain oracle (tr : list event) :
  checkHealth oracle tr
  = match makeRequestWithRetry oracle ENDPOINT_HEALTH (mkOptions (Some "GET") None) tr with
    | None => None
    | Some (c, tr') =>
        Some (tryCatch
                (andThen c (fun response =>
                 andThen (validateResponse response ["status"]) (fun _ =>
                 Return (success response "Server is healthy"))))
                (fun error => Return (failure error)), tr')
    end.
Proof.
  unfold checkHealth. destruct (makeRequestWithRetry _ _ _ _) as [[[response|e] tr']|];
    [| |reflexivity]; f_equal; f_equal; cbn [andThen tryCatch].
  - destruct (validateResponse response ["status"]); cbn [andThen tryCatch]; quiet_log;
      reflexivity.
  - quiet_log. reflexivity.
Qed.

Lemma startScraping_plain oracle (date : json) (now : Z) (tr : list event) :
  startScraping oracle date now tr
  = match check_date date now with
    | Throw e => Some (Return (failure e), tr)
    | Return sanitizedDate =>
        match makeRequestWithRetry oracle ENDPOINT_SCRAPE
                (mkOptions (Some "POST")
                   (Some (JSON_stringify (JObj [("date", JStr sanitizedDate)])))) tr with
        | None => None
        | Some (c, tr') =>
            Some (tryCatch
                    (andThen c (fun response =>
                     andThen (validateResponse response ["message"]) (fun _ =>
                     Return (success response "Scraping started successfully"))))
                    (fun error => Return (failure error)), tr')
        end
    end.
Proof.
  unfold startScraping, startScraping_any, check_argument. cbv zeta.
  destruct (check_date date now) as [s|e].
  - destruct (makeRequestWithRetry _ _ _ _) as [[[response|e] tr']|];
      [| |reflexivity]; f_equal; f_equal; cbn [andThen tryCatch].
    + destruct (validateResponse response ["message"]); cbn [andThen tryCatch]; quiet_log;
        reflexivity.
    + quiet_log. reflexivity.
  - quiet_log. reflexivity.
Qed.

Lemma getScrapingStatus_plain oracle (tr : list event) :
  getScrapingStatus oracle tr
  = match makeRequest oracle ENDPOINT_STATUS (mkOptions (Some "GET") None) tr with
    | (c, _, tr') =>
        (tryCatch
           (andThen c (fun response =>
            andThen (validateResponse response ["is_running"]) (fun _ =>
            Return (JObj [("success", JBool true);
                          ("data", response);
                          ("isRunning", JBool (truthy (get "is_running" response)));
                          ("progress", JNum (clamp_progress (get "progress" response)));
                          ("message",
                           js_or (sanitizeInput (get "message" response))
                                 (JStr "Status retrieved successfully"))]))))
           (fun error =>
              Return (JObj [("success", JBool false);
                            ("error", JStr (error_message error));
                            ("status", JNum (num (status_or_zero error)));
                            ("isRunning", JBool false);
                            ("progress", JNum (num 0))])),
         tr')
    end.
Proof.
  unfold getScrapingStatus. destruct (makeRequest _ _ _ _) as [[[response|e] o] tr'];
    f_equal; cbn [andThen tryCatch].
  - destruct (validateResponse response ["is_running"]); cbn [andThen tryCatch]; quiet_log;
      reflexivity.
  - quiet_log. reflexivity.
Qed.

Lemma getResults_plain oracle (tr : list event) :
  getResults oracle tr
  = match makeRequest oracle ENDPOINT_RESULTS (mkOptions (Some "GET") None) tr with
    | (c, _, tr') =>
        (tryCatch
           (andThen c (fun response =>
            if negb (truthy response && typeof_object response
                     && is_true (get "success" response)
                     && isArray (get "orders" response))
            then Throw (ApiError "Results not ready" 202 JNull)
            else Return (success response "Results retrieved successfully")))
           (fun error => Return (failure error)),
         tr')
    end.
Proof.
  unfold getResults. destruct (makeRequest _ _ _ _) as [[[response|e] o] tr'];
    f_equal; cbn [andThen tryCatch].
  - destruct (negb _); cbn [andThen tryCatch]; quiet_log; reflexivity.
  - quiet_log. reflexivity.
Qed.

Lemma stopScraping_plain oracle (tr : list event) :
  stopScraping oracle tr
  = match makeRequest oracle ENDPOINT_STOP (mkOptions (Some "POST") None) tr with
    | (c, _, tr') =>
        (tryCatch
           (andThen c (fun response =>
            Return (success response "Scraping stopped successfully")))
           (fun error => Return (failure error)),
         tr')
    end.
Proof.
  unfold stopScraping. destruct (makeRequest _ _ _ _) as [[[response|e] o] tr'];
    f_equal; cbn [andThen tryCatch]; quiet_log; reflexivity.
Qed.

Lemma fetches_app (tr1 tr2 : list event) :
  fetches (tr1 ++ tr2) = (fetches tr1 + fetches tr2)%nat.
Proof.
  induction tr1 as [|e tr1 IH]; simpl; [reflexivity|].
  rewrite IH. lia.
Qed.

(** Whatever [fetch] does, the request promise rejects with an ApiError
    only: the abort of the timeout controller is rewritten to status 408. *)
Lemma convert_error_api (e : JsError) : instanceof_ApiError (convert_error e) = true.
Proof.
  unfold convert_error.
  destruct (String.eqb (error_name e) "AbortError"); [reflexivity|].
  destruct (instanceof_ApiError e) eqn:E; [exact E|].
  destruct (String.eqb (error_name e) "TypeError" && includes (error_message e) "fetch");
    reflexivity.
Qed.

Lemma settle_request_api (fr : FetchResult) (e : JsError) :
  settle_request fr = Throw e -> instanceof_ApiError e = true.
Proof.
  unfold settle_request.
  destruct (match fr with Responded r => on_response r | Rejected e0 => Throw e0 end);
    intros E; inversion E; subst. apply convert_error_api.
Qed.

Lemma makeRequest_api oracle url options tr e options' tr' :
  makeRequest oracle url options tr = (Throw e, options', tr') ->
  instanceof_ApiError e = true.
Proof.
  unfold makeRequest. destruct (String.eqb url "").
  - intros E; inversion E; reflexivity.
  - intros E; inversion E as [[E1 E2 E3]]. eapply settle_request_api; eassumption.
Qed.

(** On an ApiError the retry test only looks at the status. *)
Lemma shouldRetry_api (e : JsError) :
  instanceof_ApiError e = true ->
  shouldRetry e = (status_or_zero e =? 0) || (500 <=? status_or_zero e).
Proof.
  destruct e as [m s d|n m]; [|discriminate]. intros _.
  unfold shouldRetry, status_or_zero. simpl. apply orb_false_r.
Qed.

(** An aborted request settles as the 408 timeout error. *)
Lemma settle_request_abort (m : string) :
  settle_request (Rejected (NativeError "AbortError" m))
  = Throw (ApiError "Request timeout - server is taking too long to respond" 408 JNull).
Proof. reflexivity. Qed.

(** The three shapes of a retried call that starts from an empty trace. *)
Lemma retry_shapes oracle url options :
  exists c tr, makeRequestWithRetry oracle url options [] = Some (c, tr)
    /\ (tr = []
        \/ (exists f1, tr = [f1] /\ is_fetch f1 = true)
        \/ (exists f1 f2, tr = [f1; Sleep 1000; f2]
              /\ is_fetch f1 = true /\ is_fetch f2 = true)
        \/ (exists f1 f2 f3, tr = [f1; Sleep 1000; f2; Sleep 2000; f3]
              /\ is_fetch f1 = true /\ is_fetch f2 = true /\ is_fetch f3 = true)).
Proof.
  unfold makeRequestWithRetry. simpl. unfold makeRequest.
  destruct (String.eqb url "").
  { simpl. eauto 10. }
  simpl. destruct (settle_request (oracle 0%nat)); [eauto 10|].
  destruct (shouldRetry e); simpl; [|eauto 10].
  destruct (settle_request (oracle 1%nat)); [eauto 12|].
  destruct (shouldRetry e0); simpl; [|eauto 12].
  destruct (settle_request (oracle 2%nat)); eauto 15.
Qed.

(** ** Retry and backoff *)

(** C7: in every run of [makeRequestWithRetry], the wait that precedes
    attempt k (k >= 2) is RETRY_DELAY * 2^(k-2) with RETRY_DELAY = 1000:
    a second attempt is preceded by a wait of 1000 ms and a third one by a
    wait of 2000 ms, twice the former. *)
Theorem backoff_delay_doubles oracle url options c tr :
  makeRequestWithRetry oracle url options [] = Some (c, tr) ->
  RETRY_DELAY = 1000
  /\ (forall k d, delay_before k tr = Some d ->
        (2 <= k)%nat /\ d = RETRY_DELAY * 2 ^ (Z.of_nat k - 2)
        /\ d = retryDelay (Z.of_nat k - 1))
  /\ ((2 <= fetches tr)%nat -> delay_before 2 tr = Some 1000)
  /\ ((3 <= fetches tr)%nat ->
        delay_before 3 tr = Some 2000 /\ delay_before 2 tr = Some 1000
        /\ 2000 = 2 * 1000).
Proof.
  intros Hrun.
  destruct (retry_shapes oracle url options) as (c' & tr' & Hrun' & Hshape).
  rewrite Hrun in Hrun'. inversion Hrun'; subst c' tr'. clear Hrun'.
  split; [reflexivity|].
  assert (Hk : forall (P : nat -> Prop), P 0%nat -> P 1%nat -> P 2%nat -> P 3%nat ->
            (forall n, P (S (S (S (S n))))) -> forall k, P k).
  { intros P P0 P1 P2 P3 P4 k. do 4 (destruct k as [|k]; [assumption|]). apply P4. }
  destruct Hshape as [-> | [(f1 & -> & F1) | [(f1 & f2 & -> & F1 & F2)
                    | (f1 & f2 & f3 & -> & F1 & F2 & F3)]]].
  - split; [intros k d; destruct k; discriminate|].
    split; [intros Hc; simpl in Hc; lia|intros Hc; simpl in Hc; lia].
  - destruct f1; try discriminate.
    split; [|split; intros Hc; simpl in Hc; lia].
    intros k; pattern k; apply Hk; intros; discriminate.
  - destruct f1, f2; try discriminate.
    split; [|split; [reflexivity|intros Hc; simpl in Hc; lia]].
    intros k; pattern k; apply Hk; intros; try discriminate.
    match goal with E : delay_before _ _ = Some _ |- _ => inversion E end.
    repeat split; try lia; reflexivity.
  - destruct f1, f2, f3; try discriminate.
    split; [|split; [reflexivity|intros _; repeat split]].
    intros k; pattern k; apply Hk; intros; try discriminate;
      match goal with E : delay_before _ _ = Some _ |- _ => inversion E end;
      repeat split; try lia; reflexivity.
Qed.

(** X1: the retried call always settles, and at most three attempts are
    ever made. *)
Lemma retry_at_most_three oracle url options :
  exists c tr, makeRequestWithRetry oracle url options [] = Some (c, tr)
    /\ (fetches tr <= 3)%nat.
Proof.
  destruct (retry_shapes oracle url options) as (c & tr & Hrun & Hshape).
  exists c, tr. split; [exact Hrun|].
  destruct Hshape as [-> | [(f1 & -> & F1) | [(f1 & f2 & -> & F1 & F2)
                    | (f1 & f2 & f3 & -> & F1 & F2 & F3)]]];
    simpl; repeat match goal with E : is_fetch _ = true |- _ => rewrite E; clear E end;
    simpl; lia.
Qed.

(** A failure that is not retryable (an ApiError whose status is neither 0
    nor 500 and above, such as 400 or 429) ends the call after one
    attempt, and the error is passed on unchanged. *)
Lemma retry_client_error_once oracle url options tr e :
  url <> "" ->
  settle_request (oracle (fetches tr)) = Throw e ->
  status_or_zero e <> 0 -> status_or_zero e < 500 ->
  makeRequestWithRetry oracle url options tr
  = Some (Throw e, tr ++ [Fetch url (opt_method options)
                            (sanitize_body (opt_body options))]).
Proof.
  intros Hurl Hset H0 H500.
  unfold makeRequestWithRetry. simpl. unfold makeRequest.
  destruct (String.eqb_spec url ""); [contradiction|].
  rewrite Hset. simpl.
  rewrite (shouldRetry_api e (settle_request_api _ _ Hset)).
  destruct (Z.eqb_spec (status_or_zero e) 0); [contradiction|].
  destruct (Z.leb_spec 500 (status_or_zero e)); [lia|]. reflexivity.
Qed.

(** C2 (the code at a timeout): when the first attempt runs into the
    request timeout (fetch is aborted), [makeRequestWithRetry] makes no
    second attempt: it rejects with the 408 timeout error after exactly one
    request, although its retry test asks for AbortError. *)
Theorem timeout_not_retried oracle url options tr m :
  url <> "" ->
  oracle (fetches tr) = Rejected (NativeError "AbortError" m) ->
  makeRequestWithRetry oracle url options tr
  = Some (Throw (ApiError "Request timeout - server is taking too long to respond"
                   408 JNull),
          tr ++ [Fetch url (opt_method options) (sanitize_body (opt_body options))])
  /\ shouldRetry (NativeError "AbortError" m) = true
  /\ shouldRetry (ApiError "Request timeout - server is taking too long to respond"
                    408 JNull) = false.
Proof.
  intros Hurl Hor. split; [|split; reflexivity].
  apply retry_client_error_once;
    [exact Hurl| |unfold status_or_zero; simpl; lia|unfold status_or_zero; simpl; lia].
  rewrite Hor. apply settle_request_abort.
Qed.

(** Three retryable failures in a row: the third error is what the caller
    gets, after exactly three attempts. *)
Lemma retry_exhausted oracle url options e1 e2 e3 :
  url <> "" ->
  settle_request (oracle 0%nat) = Throw e1 -> shouldRetry e1 = true ->
  settle_request (oracle 1%nat) = Throw e2 -> shouldRetry e2 = true ->
  settle_request (oracle 2%nat) = Throw e3 ->
  exists tr, makeRequestWithRetry oracle url options [] = Some (Throw e3, tr)
    /\ fetches tr = 3%nat.
Proof.
  intros Hurl H1 R1 H2 R2 H3.
  unfold makeRequestWithRetry. simpl. unfold makeRequest.
  destruct (String.eqb_spec url ""); [contradiction|].
  simpl. rewrite H1, R1. simpl. rewrite H2, R2. simpl. rewrite H3.
  eexists. split; reflexivity.
Qed.



(** X3: responses with a status of 500 or above are retried until the
    third attempt, whose error is passed on as it is. *)
Theorem server_errors_exhaust_retries oracle url options (r1 r2 r3 : Response) :
  url <> "" ->
  oracle 0%nat = Responded r1 -> oracle 1%nat = Responded r2 ->
  oracle 2%nat = Responded r3 ->
  500 <= resp_status r1 -> 500 <= resp_status r2 -> 500 <= resp_status r3 ->
  exists e3 tr,
    settle_request (Responded r3) = Throw e3
    /\ makeRequestWithRetry oracle url options [] = Some (Throw e3, tr)
    /\ fetches tr = 3%nat.
Proof.
  intros Hurl H1 H2 H3 S1 S2 S3.
  assert (Hsrv : forall r, 500 <= resp_status r ->
            exists m d, settle_request (Responded r) = Throw (ApiError m (resp_status r) d)).
  { intros r Hs. unfold settle_request, on_response.
    destruct (Z.eqb_spec (resp_status r) 429) as [E|_]; [lia|].
    assert (Hok : resp_ok r = false).
    { unfold resp_ok. apply andb_false_iff. right. apply Z.leb_gt. lia. }
    rewrite Hok. simpl negb. cbv iota.
    destruct (resp_json r) as [[| | | | | |]|e]; eexists _, _; reflexivity. }
  assert (Hretry : forall m s d, 500 <= s -> shouldRetry (ApiError m s d) = true).
  { intros m s d Hs. unfold shouldRetry. simpl.
    destruct (Z.leb_spec 500 s); [|lia]. rewrite orb_true_r. reflexivity. }
  destruct (Hsrv r1 S1) as (m1 & d1 & E1). destruct (Hsrv r2 S2) as (m2 & d2 & E2).
  destruct (Hsrv r3 S3) as (m3 & d3 & E3).
  destruct (retry_exhausted oracle url options _ _ _ Hurl
              ltac:(rewrite H1; exact E1) (Hretry _ _ _ S1)
              ltac:(rewrite H2; exact E2) (Hretry _ _ _ S2)
              ltac:(rewrite H3; exact E3)) as (tr & Hrun & Hn).
  eauto.
Qed.

(** ** Status responses *)

Lemma Qc_clamp (lo hi p : Qc) :
  (lo <= hi)%Qc -> (lo <= Qc_max lo (Qc_min hi p))%Qc /\ (Qc_max lo (Qc_min hi p) <= hi)%Qc.
Proof.
  intros Hlh. unfold Qc_max, Qc_min.
  destruct (decide (hi <= p)%Qc) as [Hp|Hp].
  - destruct (decide (lo <= hi)%Qc) as [_|Hn]; [|contradiction].
    split; [exact Hlh|apply Qcle_refl].
  - apply Qcnot_le_lt, Qclt_le_weak in Hp.
    destruct (decide (lo <= p)%Qc) as [Hq|Hq].
    + split; assumption.
    + split; [apply Qcle_refl|exact Hlh].
Qed.

Lemma Qc_0_le_100 : (Q2Qc (inject_Z 0) <= Q2Qc (inject_Z 100))%Qc.
Proof. unfold Qcle, Qle. simpl. lia. Qed.

(** The reported progress is a finite number between 0 and 100, whatever
    the response carries. *)
Lemma clamp_progress_range (v : json) :
  exists q, clamp_progress v = Fin q
    /\ (Q2Qc (inject_Z 0) <= q)%Qc /\ (q <= Q2Qc (inject_Z 100))%Qc.
Proof.
  pose proof Qc_0_le_100 as H100.
  assert (Hfin : forall p,
             exists q, Math_max (num 0) (Math_min (num 100) (Fin p)) = Fin q
               /\ (Q2Qc (inject_Z 0) <= q)%Qc /\ (q <= Q2Qc (inject_Z 100))%Qc).
  { intros p. eexists. split; [reflexivity|]. apply Qc_clamp, H100. }
  unfold clamp_progress. destruct (Number v) as [| | |p]; simpl truthy; cbv iota.
  - apply Hfin.
  - exists (Qc_max (Q2Qc (inject_Z 0)) (Q2Qc (inject_Z 100))). split; [reflexivity|].
    unfold Qc_max. destruct (decide _); [split; [assumption|apply Qcle_refl]|contradiction].
  - exists (Q2Qc (inject_Z 0)). split; [reflexivity|]. split; [apply Qcle_refl|exact H100].
  - destruct (negb (Qc_zero p)); apply Hfin.
Qed.






(** ** The operations always resolve *)

(** The retried call never runs out of fuel. *)
Lemma retry_total oracle url options tr :
  exists c tr', makeRequestWithRetry oracle url options tr = Some (c, tr').
Proof.
  unfold makeRequestWithRetry. simpl.
  destruct (makeRequest oracle url options tr) as [[[v|e] o1] tr1]; [eauto|].
  destruct (shouldRetry e); simpl; [|eauto].
  destruct (makeRequest oracle url o1 _) as [[[v2|e2] o2] tr2]; [eauto|].
  destruct (shouldRetry e2); simpl; [|eauto].
  destruct (makeRequest oracle url o2 _) as [[[v3|e3] o3] tr3]; eauto.
Qed.

Lemma result_shape_fields (r : json) :
  result_shape r ->
  get "success" r = JBool true
  \/ (get "success" r = JBool false
      /\ (exists m, get "error" r = JStr m)
      /\ (exists s, get "status" r = JNum (num s))).
Proof.
  intros [(d & m & ->)|(e & ->)]; [left; reflexivity|right].
  split; [reflexivity|]. split; eexists; reflexivity.
Qed.

Lemma guarded_shape (c : completion json) (keys : list string) (message : string) :
  exists r,
    tryCatch
      (andThen c (fun response =>
       andThen (validateResponse response keys) (fun _ =>
       Return (success response message))))
      (fun error => Return (failure error)) = Return r
    /\ result_shape r.
Proof.
  destruct c as [response|e]; simpl.
  - destruct (validateResponse response keys) as [b|e]; simpl.
    + eexists. split; [reflexivity|]. left. eauto.
    + eexists. split; [reflexivity|]. right. eauto.
  - eexists. split; [reflexivity|]. right. eauto.
Qed.

Lemma checkHealth_resolves oracle tr :
  exists r tr', checkHealth oracle tr = Some (Return r, tr') /\ result_shape r.
Proof.
  rewrite checkHealth_plain.
  destruct (retry_total oracle ENDPOINT_HEALTH (mkOptions (Some "GET") None) tr)
    as (c & tr' & ->).
  destruct (guarded_shape c ["status"] "Server is healthy") as (r & -> & Hr). eauto.
Qed.

Lemma startScraping_resolves oracle date now tr :
  exists r tr', startScraping oracle date now tr = Some (Return r, tr') /\ result_shape r.
Proof.
  rewrite startScraping_plain. destruct (check_date date now) as [s|e].
  - destruct (retry_total oracle ENDPOINT_SCRAPE
                (mkOptions (Some "POST")
                   (Some (JSON_stringify (JObj [("date", JStr s)])))) tr)
      as (c & tr' & ->).
    destruct (guarded_shape c ["message"] "Scraping started successfully")
      as (r & -> & Hr). eauto.
  - exists (failure e), tr. split; [reflexivity|]. right. eauto.
Qed.

Lemma getScrapingStatus_resolves oracle tr :
  exists r tr', getScrapingStatus oracle tr = (Return r, tr')
    /\ (get "success" r = JBool true
        \/ (get "success" r = JBool false
            /\ (exists m, get "error" r = JStr m)
            /\ (exists s, get "status" r = JNum (num s))
            /\ get "isRunning" r = JBool false
            /\ get "progress" r = JNum (num 0))).
Proof.
  rewrite getScrapingStatus_plain.
  destruct (makeRequest oracle ENDPOINT_STATUS _ tr) as [[[response|e] o] tr'].
  - simpl. destruct (validateResponse response ["is_running"]) as [b|e]; simpl.
    + eexists _, _. split; [reflexivity|]. left. reflexivity.
    + eexists _, _. split; [reflexivity|]. right. simpl. eauto 10.
  - simpl. eexists _, _. split; [reflexivity|]. right. simpl. eauto 10.
Qed.

Lemma getResults_resolves oracle tr :
  exists r tr', getResults oracle tr = (Return r, tr') /\ result_shape r.
Proof.
  rewrite getResults_plain.
  destruct (makeRequest oracle ENDPOINT_RESULTS _ tr) as [[[response|e] o] tr'].
  - simpl.
    destruct (negb (truthy response && typeof_object response
                    && is_true (get "success" response)
                    && isArray (get "orders" response))); simpl.
    + eexists _, _. split; [reflexivity|]. right. eauto.
    + eexists _, _. split; [reflexivity|]. left. eauto.
  - simpl. eexists _, _. split; [reflexivity|]. right. eauto.
Qed.

Lemma stopScraping_resolves oracle tr :
  exists r tr', stopScraping oracle tr = (Return r, tr') /\ result_shape r.
Proof.
  rewrite stopScraping_plain.
  destruct (makeRequest oracle ENDPOINT_STOP _ tr) as [[[response|e] o] tr']; simpl.
  - eexists _, _. split; [reflexivity|]. left. eauto.
  - eexists _, _. split; [reflexivity|]. right. eauto.
Qed.

(** X26: whatever the network answers, in every build and for every
    JSON-like argument of startScraping, each of checkHealth, startScraping,
    getScrapingStatus, getResults and stopScraping settles with a returned
    object and never with a thrown error: the object has success true, or
    it has success false, a string error and a numeric status (0 when the
    error has none); the failure object of getScrapingStatus also has
    isRunning false and progress 0. *)
Theorem operations_never_throw oracle (date : json) (now : Z) (tr : list event) :
  let settled (r : json) :=
    get "success" r = JBool true
    \/ (get "success" r = JBool false
        /\ (exists m, get "error" r = JStr m)
        /\ (exists s, get "status" r = JNum (num s))) in
  (exists r tr', checkHealth oracle tr = Some (Return r, tr') /\ settled r)
  /\ (exists r tr', startScraping oracle date now tr = Some (Return r, tr') /\ settled r)
  /\ (exists r tr', getScrapingStatus oracle tr = (Return r, tr')
        /\ (get "success" r = JBool true
            \/ (get "success" r = JBool false
                /\ (exists m, get "error" r = JStr m)
                /\ (exists s, get "status" r = JNum (num s))
                /\ get "isRunning" r = JBool false
                /\ get "progress" r = JNum (num 0))))
  /\ (exists r tr', getResults oracle tr = (Return r, tr') /\ settled r)
  /\ (exists r tr', stopScraping oracle tr = (Return r, tr') /\ settled r)
  /\ (forall e, get "status" (failure e) = JNum (num (status_or_zero e))
                /\ (error_status e = None -> status_or_zero e = 0)).
Proof.
  intros settled.
  assert (Hs : forall r, result_shape r -> settled r)
    by (intros r Hr; apply result_shape_fields, Hr).
  repeat split.
  - destruct (checkHealth_resolves oracle tr) as (r & tr' & E & Hr). eauto.
  - destruct (startScraping_resolves oracle date now tr) as (r & tr' & E & Hr). eauto.
  - apply getScrapingStatus_resolves.
  - destruct (getResults_resolves oracle tr) as (r & tr' & E & Hr). eauto.
  - destruct (stopScraping_resolves oracle tr) as (r & tr' & E & Hr). eauto.
  - unfold status_or_zero. intros ->. reflexivity.
Qed.

(** C10: the claim fails on [startScraping].  Its catch clause logs the
    argument as it was passed, so in a build that is not a production build
    a BigInt argument, refused by the local check without any request,
    makes the logger throw inside the catch clause and the call rejects
    with that TypeError instead of returning the failure object.  Among
    the JSON-like values and the BigInts the call throws exactly when the
    build is not a production build and the argument is a BigInt, and
    returns an object of the result shape otherwise. *)
Theorem startScraping_logging_throws oracle (date : Argument) (now : Z)
    (tr : list event) :
  exists c tr',
    startScraping_any oracle date now tr = Some (c, tr')
    /\ ((exists e, c = Throw e) <-> IS_PRODUCTION = false /\ exists n, date = BigInt n)
    /\ (forall n, date = BigInt n ->
          tr' = tr
          /\ c = if IS_PRODUCTION
                 then Return (failure (ApiError "Date is required" 400 JNull))
                 else Throw (NativeError "TypeError" BigInt_serialize_error))
    /\ (forall r, c = Return r -> result_shape r).
Proof.
  destruct date as [v|n].
  - destruct (startScraping_resolves oracle v now tr) as (r & tr' & E & Hr).
    exists (Return r), tr'. split; [exact E|]. split; [|split].
    + split; [intros (e & He); discriminate|intros (_ & n & Hn); discriminate].
    + intros n Hn. discriminate.
    + intros r' Hr'. injection Hr' as <-. exact Hr.
  - unfold startScraping_any, check_argument, report, safeLog. cbv zeta.
    cbn [serialisable forallb snd andb].
    destruct IS_PRODUCTION; cbn [andThen]; eexists _, _; (split; [reflexivity|]).
    + split; [|split].
      * split; [intros (e & He); discriminate|intros (Hp & _); discriminate].
      * intros m _. split; reflexivity.
      * intros r Hr. injection Hr as <-. right. eauto.
    + split; [|split].
      * split; [intros _; split; [reflexivity|eauto]|intros _; eauto].
      * intros m _. split; reflexivity.
      * intros r Hr. discriminate.
Qed.

(** ** Date validation of startScraping *)

Lemma days_before_2010 (y m d : Z) :
  valid_date y m d = true -> y < 2010 -> days_from_civil y m d < 14610.
Proof.
  unfold valid_date, days_from_civil. intros Hv Hy.
  apply andb_prop in Hv as [Hv Hd]. apply andb_prop in Hv as [Hv Hd1].
  apply andb_prop in Hv as [Hm1 Hm12].
  assert (Hd31 : d <= 31).
  { apply Z.leb_le in Hd. unfold days_in_month in Hd.
    destruct (m =? 2); [destruct (is_leap y); lia|].
    destruct ((m =? 4) || (m =? 6) || (m =? 9) || (m =? 11)); lia. }
  apply Z.leb_le in Hm1, Hm12.
  assert (Hc : m = 1 \/ m = 2 \/ m = 3 \/ m = 4 \/ m = 5 \/ m = 6 \/ m = 7 \/ m = 8
               \/ m = 9 \/ m = 10 \/ m = 11 \/ m = 12) by lia.
  destruct Hc as [->|[->|[->|[->|[->|[->|[->|[->|[->|[->|[->| ->]]]]]]]]]]];
    cbn [Z.leb Z.compare Pos.compare Pos.compare_cont];
    change ((1 + 9) mod 12) with 10; change ((2 + 9) mod 12) with 11;
    change ((3 + 9) mod 12) with 0; change ((4 + 9) mod 12) with 1;
    change ((5 + 9) mod 12) with 2; change ((6 + 9) mod 12) with 3;
    change ((7 + 9) mod 12) with 4; change ((8 + 9) mod 12) with 5;
    change ((9 + 9) mod 12) with 6; change ((10 + 9) mod 12) with 7;
    change ((11 + 9) mod 12) with 8; change ((12 + 9) mod 12) with 9;
    pose proof (Z.div_le_mono (y - 1) 2008 4);
    pose proof (Z.div_le_mono y 2009 4);
    pose proof (Z.div_le_mono (y - 1) 2008 400);
    pose proof (Z.div_le_mono y 2009 400);
    pose proof (Z.div_le_mono y 2009 100);
    pose proof (Z.div_le_mono (y - 1) 2008 100);
    Z.to_euclidean_division_equations; lia.
Qed.

Lemma minDate_value : new_Date "2010-01-01" = Some (14610 * MS_PER_DAY).
Proof. reflexivity. Qed.

Lemma match_date_nonempty (s : string) (ymd : Z * Z * Z) :
  match_date s = Some ymd -> String.eqb s "" = false /\ date_regex_test s = true.
Proof.
  intros Hm. unfold date_regex_test. rewrite Hm. split; [|reflexivity].
  destruct s; [discriminate|reflexivity].
Qed.

(** The local checks on a sanitised string that names a calendar date. *)
Lemma check_date_calendar (date : json) (now : Z) (s : string) (y m d : Z) :
  sanitizeInput date = JStr s ->
  match_date s = Some (y, m, d) -> valid_date y m d = true ->
  check_date date now
  = if now <? days_from_civil y m d * MS_PER_DAY then
      Throw (ApiError "Date cannot be in the future" 400 JNull)
    else if days_from_civil y m d * MS_PER_DAY <? 14610 * MS_PER_DAY then
      Throw (ApiError "Date cannot be before 2010" 400 JNull)
    else Return s.
Proof.
  intros Hs Hm Hv. unfold check_date. rewrite Hs.
  destruct (match_date_nonempty _ _ Hm) as [-> ->]. cbv iota. simpl negb. cbv iota.
  rewrite minDate_value. unfold new_Date. rewrite Hm, Hv. reflexivity.
Qed.

(** A retried call to a proper URL starts by dispatching its request. *)
Lemma retry_first_fetch oracle url options tr :
  url <> "" ->
  exists c rest,
    makeRequestWithRetry oracle url options tr
    = Some (c, tr ++ Fetch url (opt_method options) (sanitize_body (opt_body options))
                  :: rest).
Proof.
  intros Hurl. unfold makeRequestWithRetry. simpl. unfold makeRequest.
  destruct (String.eqb_spec url ""); [contradiction|].
  destruct (settle_request _); [eauto|].
  destruct (shouldRetry e); simpl; [|eauto].
  destruct (settle_request _);
    [eexists _, _; rewrite <- !app_assoc; simpl; reflexivity|].
  destruct (shouldRetry e0); simpl;
    [|eexists _, _; rewrite <- !app_assoc; simpl; reflexivity].
  destruct (settle_request _);
    eexists _, _; rewrite <- !app_assoc; simpl; reflexivity.
Qed.

(** C6 (as amended): [startScraping] sanitises its argument first and
    checks the sanitised value.  Every rejection is local: the failure
    object is returned and nothing is sent.  A sanitised value that is not
    a string of the shape YYYY-MM-DD is rejected; so is a calendar date
    before 2010-01-01 (2009-12-31 in particular), and one after the current
    (UTC) day.  On acceptance the first thing done is the POST of the
    sanitised date; 2015-06-01 is accepted from that day on. *)
Theorem startScraping_validates oracle (date : json) (now : Z) (tr : list event) :
  (forall e, check_date date now = Throw e ->
     startScraping oracle date now tr = Some (Return (failure e), tr))
  /\ (forall s, check_date date now = Return s ->
        sanitizeInput date = JStr s
        /\ exists c rest,
             startScraping oracle date now tr
             = Some (c, tr ++ Fetch ENDPOINT_SCRAPE (Some "POST")
                              (sanitize_body
                                 (Some (JSON_stringify (JObj [("date", JStr s)]))))
                           :: rest))
  /\ ((forall s, sanitizeInput date = JStr s -> date_regex_test s = false) ->
      exists e, check_date date now = Throw e)
  /\ (forall s y m d,
        sanitizeInput date = JStr s -> match_date s = Some (y, m, d) ->
        valid_date y m d = true ->
        (y < 2010 -> exists e, check_date date now = Throw e)
        /\ (now / MS_PER_DAY < days_from_civil y m d ->
            check_date date now = Throw (ApiError "Date cannot be in the future" 400 JNull)))
  /\ (sanitizeInput (JStr "2009-12-31") = JStr "2009-12-31" ->
      exists e, check_date (JStr "2009-12-31") now = Throw e)
  /\ (sanitizeInput (JStr "2015-06-01") = JStr "2015-06-01" ->
      days_from_civil 2015 6 1 * MS_PER_DAY <= now ->
      check_date (JStr "2015-06-01") now = Return "2015-06-01").
Proof.
  assert (Hbefore : forall dt s y m d,
             sanitizeInput dt = JStr s -> match_date s = Some (y, m, d) ->
             valid_date y m d = true -> y < 2010 ->
             exists e, check_date dt now = Throw e).
  { intros dt s y m d Hs Hm Hv Hy.
    rewrite (check_date_calendar dt now s y m d Hs Hm Hv).
    pose proof (days_before_2010 y m d Hv Hy) as Hlt.
    destruct (now <? _); [eauto|].
    destruct (Z.ltb_spec (days_from_civil y m d * MS_PER_DAY) (14610 * MS_PER_DAY));
      [eauto|]. unfold MS_PER_DAY in *. lia. }
  split; [|split; [|split; [|split; [|split]]]].
  - intros e He. rewrite startScraping_plain. rewrite He. reflexivity.
  - intros s Hs. split.
    + unfold check_date in Hs. destruct (sanitizeInput date); try discriminate.
      destruct (String.eqb s0 ""); [discriminate|].
      destruct (negb (date_regex_test s0)); [discriminate|].
      destruct (new_Date s0); [|discriminate].
      destruct (time_gt _ _); [discriminate|].
      destruct (time_lt _ _); [discriminate|]. inversion Hs. reflexivity.
    + rewrite startScraping_plain. rewrite Hs.
      destruct (retry_first_fetch oracle ENDPOINT_SCRAPE
                  (mkOptions (Some "POST")
                     (Some (JSON_stringify (JObj [("date", JStr s)])))) tr)
        as (c & rest & ->); [discriminate|]. simpl. eauto.
  - intros Hshape. unfold check_date.
    destruct (sanitizeInput date) as [| | | |s| |] eqn:Hs; eauto.
    destruct (String.eqb s ""); [eauto|].
    rewrite (Hshape s eq_refl). simpl. eauto.
  - intros s y m d Hs Hm Hv. split; [apply (Hbefore date s y m d Hs Hm Hv)|].
    intros Hfut. rewrite (check_date_calendar date now s y m d Hs Hm Hv).
    destruct (Z.ltb_spec now (days_from_civil y m d * MS_PER_DAY)) as [|Hge];
      [reflexivity|].
    exfalso. pose proof (Z.mul_succ_div_gt now MS_PER_DAY eq_refl).
    unfold MS_PER_DAY in *. nia.
  - intros Hs. apply (Hbefore _ "2009-12-31" 2009 12 31 Hs); [reflexivity|reflexivity|lia].
  - intros Hs Hnow.
    rewrite (check_date_calendar _ now "2015-06-01" 2015 6 1 Hs eq_refl eq_refl).
    destruct (Z.ltb_spec now (days_from_civil 2015 6 1 * MS_PER_DAY)); [lia|].
    reflexivity.
Qed.

(** ** The polling loop *)

Lemma calls_to_app (url : string) (tr1 tr2 : list event) :
  calls_to url (tr1 ++ tr2) = (calls_to url tr1 + calls_to url tr2)%nat.
Proof.
  induction tr1 as [|e tr1 IH]; simpl; [reflexivity|]. rewrite IH. lia.
Qed.

Lemma getScrapingStatus_trace oracle tr :
  snd (getScrapingStatus oracle tr) = tr ++ [Fetch ENDPOINT_STATUS (Some "GET") None].
Proof. reflexivity. Qed.

Lemma getResults_trace oracle tr :
  snd (getResults oracle tr) = tr ++ [Fetch ENDPOINT_RESULTS (Some "GET") None].
Proof. reflexivity. Qed.



Lemma budget_left (pollCount : Z) : pollCount < 300 -> (maxPolls <? pollCount + 1) = false.
Proof. intros. unfold maxPolls. apply Z.ltb_ge. lia. Qed.




Lemma tick_timeout oracle h interval pollCount tr :
  300 <= pollCount ->
  tick oracle h interval pollCount tr = (Resolved timeout_outcome, tr).
Proof.
  intros Hpc. unfold tick.
  destruct (Z.ltb_spec maxPolls (pollCount + 1)) as [_|Hge]; [reflexivity|].
  unfold maxPolls in Hge. lia.
Qed.

Ltac tick_case :=
  match goal with
  | |- context [getResults ?o ?t] =>
      let rr := fresh "rr" in let tr3 := fresh "tr3" in
      let Hgr := fresh "Hgr" in let Hshape := fresh "Hshape" in
      let Htr := fresh "Htr" in
      destruct (getResults_resolves o t) as (rr & tr3 & Hgr & Hshape);
      pose proof (getResults_trace o t) as Htr;
      rewrite Hgr in *; simpl snd in Htr; subst tr3
  | |- context [if negb ?c then _ else _] => destruct c eqn:?; simpl negb; cbv iota
  | |- context [if ?c then _ else _] => destruct c eqn:?
  end.

(** One run of the closure: it polls the status at most once; when it
    schedules the next run it has polled exactly once and the counter has
    grown by one within the budget; when it resolves, the outcome is a
    terminal one. *)
Lemma tick_step oracle h interval pollCount tr st tr' :
  tick oracle h interval pollCount tr = (st, tr') ->
  (status_polls tr' <= S (status_polls tr))%nat
  /\ match st with
     | Scheduled pollCount' =>
         pollCount' = pollCount + 1 /\ pollCount < 300
         /\ status_polls tr' = S (status_polls tr)
     | Resolved r => terminal_outcome r
     end.
Proof.
  unfold tick. destruct (Z.ltb_spec maxPolls (pollCount + 1)) as [Hlt|Hge].
  { intros E; inversion E; subst. split; [lia|]. right. split; reflexivity. }
  unfold maxPolls in Hge.
  destruct (getScrapingStatus_resolves oracle tr) as (sr & tr1 & Hgs & _).
  pose proof (getScrapingStatus_trace oracle tr) as Htr1.
  rewrite Hgs in *. simpl snd in Htr1. subst tr1. cbv zeta.
  unfold status_polls, terminal_outcome.
  destruct h; repeat tick_case; intros E; inversion E; subst;
    rewrite ?calls_to_app; simpl calls_to;
    try (split; [lia|]); try (repeat split; lia);
    try (right; split; reflexivity); try (left; split; reflexivity);
    (destruct Hshape as [(d & m & ->)|(e & ->)];
     [left; split; reflexivity|discriminate]).
Qed.

(** With fuel beyond the remaining budget the loop always resolves; it
    polls the status at most once per remaining tick. *)
Lemma poll_total oracle h interval (fuel : nat) :
  forall (pollCount : Z) (tr : list event),
    (0 < fuel)%nat -> 300 - pollCount < Z.of_nat fuel ->
    exists r tr',
      poll oracle fuel h interval pollCount tr = Some (r, tr')
      /\ terminal_outcome r
      /\ (status_polls tr' <= status_polls tr + Z.to_nat (300 - pollCount))%nat.
Proof.
  induction fuel as [|fuel IH]; intros pollCount tr H0 Hfuel; [lia|].
  cbn [poll].
  destruct (tick oracle h interval pollCount tr) as [[pollCount'|r] tr1] eqn:Ht.
  - destruct (tick_step _ _ _ _ _ _ _ Ht) as (_ & -> & Hlt & Hs).
    destruct (IH (pollCount + 1) tr1) as (r & tr' & Hp & Hr & Hle); [lia|lia|].
    exists r, tr'. split; [exact Hp|]. split; [exact Hr|]. lia.
  - destruct (tick_step _ _ _ _ _ _ _ Ht) as (Hle & Hr).
    exists r, tr1. split; [reflexivity|]. split; [exact Hr|].
    destruct (Z.le_gt_cases 300 pollCount) as [Hge|Hlt].
    + rewrite (tick_timeout _ _ _ _ _ Hge) in Ht. inversion Ht; subst. lia.
    + lia.
Qed.




(** C9 (as amended): a status poll is one plain [makeRequest] call (not the
    retried one): it sends exactly one request; when it fails, through the
    transport or through validation, that run of the closure resolves at
    once with [{success: false, error, status}] taken from the failed
    status result, and nothing more is sent or scheduled. *)
Theorem poll_status_failure oracle (h : Handler) (interval : Z) (pollCount : Z)
    (tr : list event) :
  exists statusResponse,
    getScrapingStatus oracle tr
    = (Return statusResponse, tr ++ [Fetch ENDPOINT_STATUS (Some "GET") None])
    /\ (forall e, settle_request (oracle (fetches tr)) = Throw e ->
          statusResponse
          = JObj [("success", JBool false); ("error", JStr (error_message e));
                  ("status", JNum (num (status_or_zero e)));
                  ("isRunning", JBool false); ("progress", JNum (num 0))])
    /\ (pollCount < 300 -> truthy (get "success" statusResponse) = false ->
        tick oracle h interval pollCount tr
        = (Resolved (JObj [("success", JBool false);
                           ("error", get "error" statusResponse);
                           ("status", get "status" statusResponse)]),
           tr ++ [Fetch ENDPOINT_STATUS (Some "GET") None])).
Proof.
  destruct (getScrapingStatus_resolves oracle tr) as (sr & tr1 & Hgs & _).
  pose proof (getScrapingStatus_trace oracle tr) as Htr1.
  rewrite Hgs in Htr1. simpl snd in Htr1. subst tr1.
  exists sr. split; [exact Hgs|]. split.
  - intros e He. revert Hgs. rewrite getScrapingStatus_plain. unfold makeRequest.
    simpl String.eqb. cbv iota. rewrite He. simpl. intros E; inversion E. reflexivity.
  - intros Hpc Hfail. unfold tick.
    rewrite (budget_left _ Hpc), Hgs, Hfail. reflexivity.
Qed.

(** ** Cancelling *)


End Properties.

(** ** The in-flight registry *)

Section Registry.
Context `{Platform}.

Lemma registry_inv_empty : registry_inv empty_world.
Proof.
  unfold registry_inv, empty_world. simpl. repeat split.
  - intros key p Hk. rewrite lookup_empty in Hk. discriminate.
  - intros key p Hp. rewrite lookup_nil in Hp. discriminate.
Qed.

Lemma registry_inv_call (url : string) (options : Options) (w : World) :
  registry_inv w -> registry_inv (snd (makeRequest_call url options w)).
Proof.
  intros (Hreg & Hpend & Hlen). unfold registry_inv, makeRequest_call.
  destruct (String.eqb url ""); [simpl; repeat split; assumption|].
  destruct (activeRequests w !! getRequestKey url options) as [p|] eqn:Hkey;
    [simpl; repeat split; assumption|].
  simpl. repeat split.
  - intros key p Hk. apply lookup_insert_Some in Hk as [[<- <-]|[Hne Hk]].
    + rewrite lookup_app_r by lia. rewrite Nat.sub_diag. reflexivity.
    + pose proof (Hreg _ _ Hk) as Hp. rewrite lookup_app_l; [exact Hp|].
      eapply lookup_lt_Some, Hp.
  - intros key p Hp.
    destruct (Nat.lt_trichotomy p (length (promises w))) as [Hlt|[->|Hgt]].
    + rewrite lookup_app_l in Hp by exact Hlt. pose proof (Hpend _ _ Hp) as Hk.
      rewrite lookup_insert_ne; [exact Hk|]. intros <-. congruence.
    + rewrite lookup_app_r in Hp by lia. rewrite Nat.sub_diag in Hp.
      inversion Hp. apply lookup_insert_eq.
    + rewrite lookup_ge_None_2 in Hp; [discriminate|].
      rewrite length_app. simpl. lia.
  - rewrite !length_app. simpl. lia.
Qed.

Lemma registry_inv_settle (p : nat) (fr : FetchResult) (w : World) :
  registry_inv w -> registry_inv (makeRequest_settle p fr w).
Proof.
  intros (Hreg & Hpend & Hlen). unfold registry_inv, makeRequest_settle.
  destruct (promises w !! p) as [[keyp|c]|] eqn:Hp; try (repeat split; assumption).
  simpl. repeat split.
  - intros key q Hk. apply lookup_delete_Some in Hk as [Hne Hk].
    pose proof (Hreg _ _ Hk) as Hq.
    rewrite list_lookup_insert_ne; [exact Hq|]. intros <-. congruence.
  - intros key q Hq.
    destruct (decide (p = q)) as [<-|Hne].
    + rewrite list_lookup_insert_eq in Hq by (eapply lookup_lt_Some, Hp). discriminate.
    + rewrite list_lookup_insert_ne in Hq by exact Hne.
      pose proof (Hpend _ _ Hq) as Hk.
      rewrite lookup_delete_ne; [exact Hk|]. intros <-.
      pose proof (Hpend _ _ Hp) as Hk'. congruence.
  - rewrite length_insert. exact Hlen.
Qed.

Lemma registry_inv_run (acts : list Action) (w : World) :
  registry_inv w -> registry_inv (run acts w).
Proof.
  revert w. induction acts as [|a acts IH]; intros w Hw; [exact Hw|].
  simpl. apply IH. destruct a as [url options|p fr]; simpl.
  - apply registry_inv_call, Hw.
  - apply registry_inv_settle, Hw.
Qed.

Lemma reachable_inv (w : World) : reachable w -> registry_inv w.
Proof. intros (acts & ->). apply registry_inv_run, registry_inv_empty. Qed.

(** A pending promise stays pending until its own request settles. *)
Lemma run_keeps_pending (acts : list Action) (p : nat) (key : string) :
  forall w, promises w !! p = Some (Pending key) ->
            forallb (fun a => negb (settles p a)) acts = true ->
            promises (run acts w) !! p = Some (Pending key).
Proof.
  induction acts as [|a acts IH]; intros w Hp Hno; [exact Hp|].
  simpl in Hno. apply andb_prop in Hno as [Ha Hno]. simpl. apply IH; [|exact Hno].
  destruct a as [url options|q fr]; simpl.
  - unfold makeRequest_call. destruct (String.eqb url ""); [exact Hp|].
    destruct (activeRequests w !! getRequestKey url options); [exact Hp|].
    simpl. rewrite lookup_app_l; [exact Hp|]. eapply lookup_lt_Some, Hp.
  - simpl in Ha. apply negb_true_iff, Nat.eqb_neq in Ha.
    unfold makeRequest_settle.
    destruct (promises w !! q) as [[keyq|c]|]; try exact Hp.
    simpl. rewrite list_lookup_insert_ne; [exact Hp|]. congruence.
Qed.

Lemma call_proper_url (url : string) (options : Options) (w : World) :
  url <> "" ->
  makeRequest_call url options w
  = match activeRequests w !! getRequestKey url options with
    | Some p => (Follows p, w)
    | None =>
        (Follows (length (promises w)),
         mkWorld (<[getRequestKey url options := length (promises w)]> (activeRequests w))
                 (promises w ++ [Pending (getRequestKey url options)])
                 (network w ++ [Fetch url (opt_method options)
                                  (sanitize_body (opt_body options))]))
    end.
Proof.
  intros Hurl. unfold makeRequest_call.
  destruct (String.eqb_spec url ""); [contradiction|reflexivity].
Qed.

(** C1: take two calls of [makeRequest] with the same method, url and
    body, the second made before the request of the first has settled
    (whatever else happens in between).  Both callers hold the same request
    promise; the first call dispatches exactly one request when none was in
    flight for the key (and attaches to the one in flight otherwise), and
    the second call dispatches nothing.  When the request settles, both
    receive the one outcome computed from it, the key is gone from the
    registry, and an identical call made afterwards creates a new promise
    and dispatches a fresh request. *)
Theorem inflight_request_shared (w : World) (url : string) (options options2 : Options)
    (between : list Action) (fr : FetchResult) :
  reachable w -> url <> "" ->
  opt_method options2 = opt_method options ->
  opt_body options2 = opt_body options ->
  let key := getRequestKey url options in
  let request := Fetch url (opt_method options) (sanitize_body (opt_body options)) in
  let w1 := snd (makeRequest_call url options w) in
  exists p,
    fst (makeRequest_call url options w) = Follows p
    /\ (activeRequests w !! key = None -> network w1 = network w ++ [request])
    /\ (activeRequests w !! key <> None -> w1 = w)
    /\ (forallb (fun a => negb (settles p a)) between = true ->
        let w2 := run between w1 in
        makeRequest_call url options2 w2 = (Follows p, w2)
        /\ received (Follows p) w2 = None
        /\ let w3 := makeRequest_settle p fr w2 in
           received (Follows p) w3 = Some (settle_request fr)
           /\ activeRequests w3 !! key = None
           /\ network w3 = network w2
           /\ exists p', p' <> p
                /\ fst (makeRequest_call url options2 w3) = Follows p'
                /\ network (snd (makeRequest_call url options2 w3))
                   = network w3 ++ [request]).
Proof.
  intros Hreach Hurl Hm Hb key request w1.
  assert (options2 = options) as ->
    by (destruct options, options2; simpl in *; congruence).
  pose proof (reachable_inv w Hreach) as Hinv.
  assert (Hinv1 : registry_inv w1) by (apply registry_inv_call, Hinv).
  assert (Hfirst : exists p,
             fst (makeRequest_call url options w) = Follows p
             /\ promises w1 !! p = Some (Pending key)
             /\ (activeRequests w !! key = None -> network w1 = network w ++ [request])
             /\ (activeRequests w !! key <> None -> w1 = w)).
  { subst w1. rewrite (call_proper_url url options w Hurl). fold key.
    destruct Hinv as (Hreg & _ & _).
    destruct (activeRequests w !! key) as [p|] eqn:Hkey.
    - exists p. simpl. split; [reflexivity|]. split; [apply Hreg, Hkey|].
      split; [discriminate|reflexivity].
    - exists (length (promises w)). simpl. split; [reflexivity|]. split.
      + rewrite lookup_app_r by lia. rewrite Nat.sub_diag. reflexivity.
      + split; [reflexivity|congruence]. }
  destruct Hfirst as (p & Hh1 & Hp1 & Hnew & Hold).
  exists p. split; [exact Hh1|]. split; [exact Hnew|]. split; [exact Hold|].
  intros Hno w2.
  assert (Hinv2 : registry_inv w2) by (apply registry_inv_run, Hinv1).
  assert (Hp2 : promises w2 !! p = Some (Pending key))
    by (apply run_keeps_pending; assumption).
  assert (Hk2 : activeRequests w2 !! key = Some p)
    by (destruct Hinv2 as (_ & Hpend & _); apply Hpend, Hp2).
  assert (Hlt : (p < length (promises w2))%nat) by (eapply lookup_lt_Some, Hp2).
  split; [rewrite (call_proper_url url options w2 Hurl); fold key; rewrite Hk2; reflexivity|].
  split; [simpl; rewrite Hp2; reflexivity|].
  intros w3. subst w3. unfold makeRequest_settle. rewrite Hp2.
  split; [simpl; rewrite list_lookup_insert_eq by exact Hlt; reflexivity|].
  split; [simpl; apply lookup_delete_eq|].
  split; [reflexivity|].
  rewrite (call_proper_url url options _ Hurl). fold key.
  cbn [activeRequests promises network]. rewrite lookup_delete_eq.
  exists (length (<[p:=Settled (settle_request fr)]> (promises w2))).
  split; [rewrite length_insert; lia|]. split; reflexivity.
Qed.

(** X4: at most one request is in flight per key. *)
Theorem one_request_per_key (w : World) (key : string) (p q : nat) :
  reachable w ->
  promises w !! p = Some (Pending key) ->
  promises w !! q = Some (Pending key) ->
  p = q /\ activeRequests w !! key = Some p.
Proof.
  intros Hreach Hp Hq. destruct (reachable_inv w Hreach) as (_ & Hpend & _).
  pose proof (Hpend _ _ Hp) as Hkp. pose proof (Hpend _ _ Hq) as Hkq.
  split; [congruence|exact Hkp].
Qed.

(** A lone call followed by the settlement of its request hands the
    caller what the sequential model of [makeRequest] computes. *)
Lemma lone_call_agrees oracle (url : string) (options : Options) (tr : list event) :
  url <> "" ->
  let '(h, w1) := makeRequest_call url options empty_world in
  received h (makeRequest_settle 0 (oracle (fetches tr)) w1)
  = Some (fst (fst (makeRequest oracle url options tr))).
Proof.
  intros Hurl. rewrite (call_proper_url url options empty_world Hurl).
  unfold makeRequest. destruct (String.eqb_spec url ""); [contradiction|].
  reflexivity.
Qed.

End Registry.

(** * Runs on concrete inputs *)

(** Three failing attempts: waits of 1000 ms and 2000 ms. *)
Lemma backoff_delay_doubles_witness :
  let oracle := fun _ : nat => server_error in
  let tr := [Fetch ENDPOINT_HEALTH (Some "GET") None; Sleep 1000;
             Fetch ENDPOINT_HEALTH (Some "GET") None; Sleep 2000;
             Fetch ENDPOINT_HEALTH (Some "GET") None] in
  makeRequestWithRetry oracle ENDPOINT_HEALTH get_options []
  = Some (Throw (ApiError "HTTP 500: Internal Server Error" 500 JNull), tr)
  /\ delay_before 2 tr = Some 1000
  /\ delay_before 3 tr = Some 2000.
Proof.
  intros oracle tr.
  assert (Hrun : makeRequestWithRetry oracle ENDPOINT_HEALTH get_options []
                 = Some (Throw (ApiError "HTTP 500: Internal Server Error" 500 JNull), tr))
    by (vm_compute; reflexivity).
  split; [exact Hrun|].
  destruct (backoff_delay_doubles oracle ENDPOINT_HEALTH get_options _ _ Hrun)
    as (_ & _ & H2 & H3).
  split; [apply H2; simpl; lia|apply H3; simpl; lia].
Defined.

(** A request that runs into the timeout is attempted once. *)
Lemma timeout_not_retried_witness :
  let oracle := fun _ : nat => aborted in
  ENDPOINT_HEALTH <> ""
  /\ oracle (fetches []) = Rejected (NativeError "AbortError" "The operation was aborted.")
  /\ makeRequestWithRetry oracle ENDPOINT_HEALTH get_options []
     = Some (Throw (ApiError "Request timeout - server is taking too long to respond"
                      408 JNull),
             [Fetch ENDPOINT_HEALTH (Some "GET") None]).
Proof.
  intros oracle.
  assert (Hurl : ENDPOINT_HEALTH <> "") by discriminate.
  assert (Hor : oracle (fetches [])
                = Rejected (NativeError "AbortError" "The operation was aborted."))
    by reflexivity.
  split; [exact Hurl|]. split; [exact Hor|].
  exact (proj1 (timeout_not_retried oracle ENDPOINT_HEALTH get_options [] _ Hurl Hor)).
Defined.



(** C10: a development build and the BigInt 10: the call rejects without
    sending anything. *)
Lemma startScraping_logging_throws_witness :
  startScraping_any (fun _ : nat => server_error) (BigInt 10) 0 []
  = Some (Throw (NativeError "TypeError" "Do not know how to serialize a BigInt"), []).
Proof.
  destruct (@startScraping_logging_throws demo_platform (fun _ : nat => server_error)
              (BigInt 10) 0 []) as (c & tr' & E & _ & Hbig & _).
  destruct (Hbig 10 eq_refl) as [Htr Hc]. rewrite Htr, Hc in E. exact E.
Defined.

(** C6, the claim as stated fails: a string with a leading blank does not
    have the shape YYYY-MM-DD, yet it is accepted and its trimmed form is
    posted. *)
Lemma startScraping_padded_cex :
  let oracle := fun _ : nat => json_response 200 (JObj [("message", JStr "started")]) in
  date_regex_test " 2015-06-01" = false
  /\ check_date (JStr " 2015-06-01") 1800000000000 = Return "2015-06-01"
  /\ exists r body,
       startScraping oracle (JStr " 2015-06-01") 1800000000000 []
       = Some (Return r, [Fetch ENDPOINT_SCRAPE (Some "POST") (Some body)])
       /\ get "success" r = JBool true.
Proof.
  intros oracle. split; [reflexivity|]. split; [vm_compute; reflexivity|].
  eexists _, _. split; [vm_compute; reflexivity|reflexivity].
Qed.

(** The two dates named by the specification, on the demo platform. *)
Lemma startScraping_examples :
  (exists e, check_date (JStr "2009-12-31") 1800000000000 = Throw e
             /\ startScraping (fun _ => server_error) (JStr "2009-12-31") 1800000000000 []
                = Some (Return (failure e), []))
  /\ check_date (JStr "2015-06-01") 1800000000000 = Return "2015-06-01".
Proof.
  split; [|vm_compute; reflexivity].
  eexists. split; vm_compute; reflexivity.
Qed.




(** C9, the claim as stated fails: the first status poll meets a 500
    response; the loop ends after that single request, while the retried
    call, against the same network, would have tried again and
    succeeded. *)
Lemma status_poll_not_retried_cex :
  let oracle := fun n : nat => match n with O => server_error | _ => running 10 end in
  pollScrapingProgress oracle NoHandler 2000 []
  = Some (Return (JObj [("success", JBool false);
                        ("error", JStr "HTTP 500: Internal Server Error");
                        ("status", JNum (num 500))]),
          [Fetch ENDPOINT_STATUS (Some "GET") None])
  /\ exists response,
       makeRequestWithRetry oracle ENDPOINT_STATUS get_options []
       = Some (Return response,
               [Fetch ENDPOINT_STATUS (Some "GET") None; Sleep 1000;
                Fetch ENDPOINT_STATUS (Some "GET") None]).
Proof.
  intros oracle. split; [vm_compute; reflexivity|].
  eexists. vm_compute. reflexivity.
Qed.


(** Two identical status requests, the second while the first is in
    flight; then the response arrives and a third one is made. *)
Lemma inflight_request_shared_witness :
  let fr := running 10 in
  let request := Fetch ENDPOINT_STATUS (Some "GET") None in
  reachable empty_world
  /\ ENDPOINT_STATUS <> ""
  /\ exists p,
       fst (makeRequest_call ENDPOINT_STATUS get_options empty_world) = Follows p
       /\ let w1 := snd (makeRequest_call ENDPOINT_STATUS get_options empty_world) in
          network w1 = [request]
          /\ makeRequest_call ENDPOINT_STATUS get_options w1 = (Follows p, w1)
          /\ let w3 := makeRequest_settle p fr w1 in
             received (Follows p) w3 = Some (settle_request fr)
             /\ activeRequests w3 !! getRequestKey ENDPOINT_STATUS get_options = None
             /\ exists p', p' <> p
                  /\ fst (makeRequest_call ENDPOINT_STATUS get_options w3) = Follows p'
                  /\ network (snd (makeRequest_call ENDPOINT_STATUS get_options w3))
                     = [request; request].
Proof.
  intros fr request.
  assert (Hreach : reachable empty_world) by (exists []; reflexivity).
  assert (Hurl : ENDPOINT_STATUS <> "") by discriminate.
  split; [exact Hreach|]. split; [exact Hurl|].
  destruct (inflight_request_shared empty_world ENDPOINT_STATUS get_options get_options
              [] fr Hreach Hurl eq_refl eq_refl)
    as (p & Hp & Hnew & _ & Hrest).
  cbv zeta in Hrest. simpl run in Hrest.
  destruct (Hrest eq_refl) as (Hsecond & _ & Hout & Hgone & Hnet & p' & Hne & Hp' & Hnet').
  exists p. split; [exact Hp|]. cbv zeta.
  split; [apply (Hnew eq_refl)|]. split; [exact Hsecond|].
  split; [exact Hout|]. split; [exact Hgone|].
  exists p'. split; [exact Hne|]. split; [exact Hp'|].
  rewrite Hnet', Hnet, (Hnew eq_refl). reflexivity.
Defined.


(** Three 500 responses: three requests, then the last error. *)
Lemma server_errors_exhaust_retries_witness :
  let oracle := fun _ : nat => server_error in
  exists e3 tr,
    settle_request server_error = Throw e3
    /\ makeRequestWithRetry oracle ENDPOINT_HEALTH get_options [] = Some (Throw e3, tr)
    /\ fetches tr = 3%nat.
Proof.
  intros oracle.
  exact (server_errors_exhaust_retries oracle ENDPOINT_HEALTH get_options _ _ _
           ltac:(discriminate) eq_refl eq_refl eq_refl
           ltac:(simpl; lia) ltac:(simpl; lia) ltac:(simpl; lia)).
Defined.

(** Two pending promises for one key are the same promise. *)
Lemma one_request_per_key_witness :
  let w := run [Call ENDPOINT_STATUS get_options; Call ENDPOINT_STATUS get_options]
               empty_world in
  let key := getRequestKey ENDPOINT_STATUS get_options in
  reachable w
  /\ promises w !! 0%nat = Some (Pending key)
  /\ length (promises w) = 1%nat
  /\ activeRequests w !! key = Some 0%nat.
Proof.
  intros w key.
  assert (Hreach : reachable w) by (eexists; reflexivity).
  assert (Hp : promises w !! 0%nat = Some (Pending key)) by reflexivity.
  split; [exact Hreach|]. split; [exact Hp|]. split; [reflexivity|].
  exact (proj2 (one_request_per_key w key 0 0 Hreach Hp Hp)).
Defined.

(** * Further properties of the service module *)

Section Validation.
Context `{Platform}.

Lemma missing_key_none (response : json) (keys : list string) :
  missing_key response keys = None <->
  (forall k, In k keys -> has_key k response = true).
Proof.
  induction keys as [|key keys IH]; simpl.
  - split; [intros _ k []|reflexivity].
  - destruct (has_key key response) eqn:Hk.
    + rewrite IH. split.
      * intros Hall k [<-|Hin]; [exact Hk|apply Hall, Hin].
      * intros Hall k Hin. apply Hall. right. exact Hin.
    + split; [discriminate|]. intros Hall.
      rewrite (Hall key (or_introl eq_refl)) in Hk. discriminate.
Qed.

Lemma missing_key_first (response : json) (keys : list string) (k : string) :
  missing_key response keys = Some k ->
  exists before after,
    keys = before ++ k :: after
    /\ has_key k response = false
    /\ (forall k', In k' before -> has_key k' response = true).
Proof.
  induction keys as [|key keys IH]; simpl; [discriminate|].
  destruct (has_key key response) eqn:Hk.
  - intros Hm. destruct (IH Hm) as (before & after & -> & Hmiss & Hpre).
    exists (key :: before), after. split; [reflexivity|]. split; [exact Hmiss|].
    intros k' [<-|Hin]; [exact Hk|apply Hpre, Hin].
  - intros E. inversion E; subst. exists [], keys. split; [reflexivity|].
    split; [exact Hk|]. intros k' [].
Qed.

(** X5: [validateResponse] accepts exactly the objects and arrays in which
    every expected key is found by the [in] operator (as an own property or
    on the prototype); any other value is refused with an ApiError of status
    0, whose message is the format error for a value that is not an object
    and otherwise names the first expected key, in the order given, that is
    not found.  A key that the prototype defines is therefore accepted on
    every object, whether or not the response carries it. *)
Theorem validateResponse_accepts_iff (response : json) (expectedKeys : list string) :
  (validateResponse response expectedKeys = Return true <->
   truthy response = true /\ typeof_object response = true
   /\ forall k, In k expectedKeys -> has_key k response = true)
  /\ (forall e, validateResponse response expectedKeys = Throw e ->
        (e = ApiError "Invalid response format" 0 JNull
         /\ (truthy response = false \/ typeof_object response = false))
        \/ (exists before k after,
              expectedKeys = before ++ k :: after
              /\ has_key k response = false
              /\ (forall k', In k' before -> has_key k' response = true)
              /\ e = ApiError ("Missing required field: " +:+ k) 0 JNull))
  /\ (forall fields k,
        response = JObj fields ->
        (validateResponse response [k] = Return true
         <-> assoc k fields <> None \/ Object_prototype_has k = true)).
Proof.
  unfold validateResponse. split; [|split].
  - destruct (truthy response), (typeof_object response); simpl;
      try (split; [discriminate|intros (Ht & Ho & _); discriminate]).
    destruct (missing_key response expectedKeys) as [k|] eqn:Hm.
    + split; [discriminate|]. intros (_ & _ & Hall).
      apply missing_key_none in Hall. congruence.
    + split; [|reflexivity]. intros _. repeat split. apply missing_key_none, Hm.
  - intros e. destruct (truthy response) eqn:Ht, (typeof_object response) eqn:Ho; simpl;
      try (intros E; inversion E; left; split; [reflexivity|auto]).
    destruct (missing_key response expectedKeys) as [k|] eqn:Hm; [|discriminate].
    intros E; inversion E. right.
    destruct (missing_key_first _ _ _ Hm) as (before & after & Hk & Hmiss & Hpre).
    exists before, k, after. auto.
  - intros fields k ->. cbn [truthy typeof_object negb orb missing_key has_key].
    destruct (assoc k fields) as [x|]; cbn [orb].
    + split; [intros _; left; discriminate|reflexivity].
    + destruct (Object_prototype_has k).
      * split; [intros _; right; reflexivity|reflexivity].
      * split; [discriminate|]. intros [Hn|Hn]; [contradiction|discriminate].
Qed.

Lemma assoc_map_sanitize (k : string) (fields : list (string * json)) :
  assoc k (List.map (fun kv : (string * json)%type =>
                       let (k', v) := kv in (k', sanitizeInput v)) fields)
  = option_map sanitizeInput (assoc k fields).
Proof.
  induction fields as [|[k' v] fields IH]; simpl; [reflexivity|].
  destruct (String.eqb k k'); [reflexivity|exact IH].
Qed.

(** Induction on values, through arrays and objects. *)
Lemma json_nested_ind (P : json -> Prop) :
  P JUndefined -> P JNull -> (forall b, P (JBool b)) -> (forall n, P (JNum n)) ->
  (forall s, P (JStr s)) ->
  (forall items, Forall P items -> P (JArr items)) ->
  (forall fields, Forall (fun kv : (string * json)%type => P (snd kv)) fields ->
                  P (JObj fields)) ->
  forall v, P v.
Proof.
  intros HU HN HB HNum HS HA HO.
  fix IH 1. intros [| |b|n|s|items|fields].
  - exact HU.
  - exact HN.
  - apply HB.
  - apply HNum.
  - apply HS.
  - apply HA. induction items as [|x items IHl]; constructor; [apply IH|exact IHl].
  - apply HO. induction fields as [|[k x] fields IHl]; constructor; [apply IH|exact IHl].
Qed.

Lemma proto_free_sanitize (v : json) :
  proto_free v = true -> proto_free (sanitizeInput v) = true.
Proof.
  induction v as [| |b|n|s|items IHl|fields IHl] using json_nested_ind;
    simpl; try reflexivity.
  - induction IHl as [|x items Hx _ IH]; simpl; [reflexivity|].
    intros Hp. apply andb_prop in Hp as [Hx' Hrest].
    rewrite (Hx Hx'), (IH Hrest). reflexivity.
  - induction IHl as [|[k x] fields Hx _ IH]; simpl; [reflexivity|].
    intros Hp. apply andb_prop in Hp as [Hx' Hrest].
    apply andb_prop in Hx' as [Hk Hx']. simpl in Hx.
    rewrite Hk, (Hx Hx'), (IH Hrest). reflexivity.
Qed.

(** X6: sanitising keeps the shape of a value none of whose objects has a
    field named __proto__: the result is an object or array exactly when the
    value is, the [in] operator finds the same keys, each own field of the
    result is the sanitised field, an array keeps its length, the verdict of
    [validateResponse] is the same before and after sanitising, and the
    result has no __proto__ field either. *)
Theorem sanitizeInput_keeps_shape (v : json) :
  proto_free v = true ->
  typeof_object (sanitizeInput v) = typeof_object v
  /\ (forall k, has_key k (sanitizeInput v) = has_key k v)
  /\ (forall fields k x,
        v = JObj fields -> assoc k fields = Some x ->
        get k (sanitizeInput v) = sanitizeInput x)
  /\ (forall items, v = JArr items ->
        exists items', sanitizeInput v = JArr items' /\ length items' = length items)
  /\ (forall keys, validateResponse (sanitizeInput v) keys = validateResponse v keys)
  /\ proto_free (sanitizeInput v) = true.
Proof.
  intros Hfree.
  assert (Hkey : forall k, has_key k (sanitizeInput v) = has_key k v).
  { intros k. destruct v; simpl; try reflexivity.
    - rewrite length_map. reflexivity.
    - rewrite assoc_map_sanitize. destruct (assoc k fields); reflexivity. }
  assert (Hobj : typeof_object (sanitizeInput v) = typeof_object v)
    by (destruct v; reflexivity).
  split; [exact Hobj|]. split; [exact Hkey|]. split.
  { intros fields k x -> Hx. simpl. rewrite assoc_map_sanitize, Hx. reflexivity. }
  split.
  { intros items ->. simpl. eexists. split; [reflexivity|]. apply length_map. }
  split; [|apply proto_free_sanitize, Hfree].
  intros keys. unfold validateResponse. rewrite Hobj.
  assert (Hmiss : missing_key (sanitizeInput v) keys = missing_key v keys).
  { induction keys as [|key keys IH]; simpl; [reflexivity|]. rewrite Hkey, IH. reflexivity. }
  rewrite Hmiss. destruct v; simpl; rewrite ?orb_true_r; reflexivity.
Qed.

(** X7: a clean value passes unchanged.  When every string of a value (at
    any depth) is left as it is by trimming and purifying, and no object of
    it has a field named __proto__, [sanitizeInput] returns a value equal to
    the one it was given. *)
Theorem sanitizeInput_fixes_clean_values (v : json) :
  proto_free v = true ->
  Forall (fun s => DOMPurify_sanitize (trim s) = s) (strings_of v) ->
  sanitizeInput v = v.
Proof.
  intros _.
  induction v as [| |b|n|s|items IHl|fields IHl] using json_nested_ind;
    simpl; try reflexivity.
  - intros Hs. inversion Hs as [|? ? Heq _]; subst. rewrite Heq. reflexivity.
  - intros Hs. f_equal. induction IHl as [|x items Hx _ IH]; simpl; [reflexivity|].
    simpl in Hs. apply Forall_app in Hs as [Hs1 Hs2].
    rewrite (Hx Hs1), (IH Hs2). reflexivity.
  - intros Hs. f_equal. induction IHl as [|[k x] fields Hx _ IH]; simpl; [reflexivity|].
    simpl in Hs, Hx. apply Forall_app in Hs as [Hs1 Hs2].
    rewrite (Hx Hs1), (IH Hs2). reflexivity.
Qed.

End Validation.

(** A status object with nested data, on the demo platform. *)
Lemma sanitizeInput_keeps_shape_witness :
  let v := JObj [("is_running", JBool true); ("message", JStr "  half way ");
                 ("tags", JArr [JStr " a "; JNull])] in
  proto_free v = true
  /\ has_key "is_running" (sanitizeInput v) = true
  /\ get "message" (sanitizeInput v) = JStr "half way"
  /\ validateResponse (sanitizeInput v) ["is_running"; "progress"]
     = validateResponse v ["is_running"; "progress"].
Proof.
  intros v.
  assert (Hfree : proto_free v = true) by reflexivity.
  destruct (sanitizeInput_keeps_shape v Hfree) as (_ & Hkey & Hget & _ & Hval & _).
  split; [exact Hfree|]. split; [rewrite Hkey; reflexivity|].
  split; [rewrite (Hget _ "message" (JStr "  half way ") eq_refl eq_refl); reflexivity|].
  apply Hval.
Defined.

(** A date and a count that need no cleaning. *)
Lemma sanitizeInput_fixes_clean_values_witness :
  let v := JObj [("date", JStr "2015-06-01"); ("counts", JArr [JNum (num 3); JNull])] in
  proto_free v = true
  /\ Forall (fun s => DOMPurify_sanitize (trim s) = s) (strings_of v)
  /\ sanitizeInput v = v.
Proof.
  intros v.
  assert (Hfree : proto_free v = true) by reflexivity.
  assert (Hclean : Forall (fun s => DOMPurify_sanitize (trim s) = s) (strings_of v))
    by (repeat constructor).
  split; [exact Hfree|]. split; [exact Hclean|].
  exact (sanitizeInput_fixes_clean_values v Hfree Hclean).
Defined.

Section Transport.
Context `{Platform}.


(** X9: one retryable failure followed by a success: the retried call
    waits 1000 ms, sends the request a second time (its body sanitised once
    more, since the first attempt overwrote it in the options object) and
    returns the data of the second response. *)
Theorem retry_recovers oracle url options tr (e : JsError) (v : json) :
  url <> "" ->
  settle_request (oracle (fetches tr)) = Throw e ->
  shouldRetry e = true ->
  settle_request (oracle (S (fetches tr))) = Return v ->
  makeRequestWithRetry oracle url options tr
  = Some (Return v,
          tr ++ [Fetch url (opt_method options) (sanitize_body (opt_body options));
                 Sleep 1000;
                 Fetch url (opt_method options)
                   (sanitize_body (sanitize_body (opt_body options)))]).
Proof.
  intros Hurl H1 Hretry H2.
  unfold makeRequestWithRetry. simpl. unfold makeRequest.
  destruct (String.eqb_spec url ""); [contradiction|].
  rewrite H1. simpl. rewrite Hretry. simpl.
  rewrite !fetches_app. simpl fetches.
  replace (fetches tr + 1 + 0)%nat with (S (fetches tr)) by lia.
  rewrite H2. rewrite <- !app_assoc. reflexivity.
Qed.


End Transport.

(** A 500 answer, then a good one. *)
Lemma retry_recovers_witness :
  let oracle := fun n : nat => match n with O => server_error | _ => running 10 end in
  let v := JObj [("is_running", JBool true); ("progress", JNum (num 10))] in
  ENDPOINT_HEALTH <> ""
  /\ shouldRetry (ApiError "HTTP 500: Internal Server Error" 500 JNull) = true
  /\ settle_request (oracle 1%nat) = Return v
  /\ makeRequestWithRetry oracle ENDPOINT_HEALTH get_options []
     = Some (Return v,
             [Fetch ENDPOINT_HEALTH (Some "GET") None; Sleep 1000;
              Fetch ENDPOINT_HEALTH (Some "GET") None]).
Proof.
  intros oracle v.
  assert (Hurl : ENDPOINT_HEALTH <> "") by discriminate.
  split; [exact Hurl|]. split; [reflexivity|]. split; [reflexivity|].
  exact (@retry_recovers demo_platform oracle ENDPOINT_HEALTH get_options []
           (ApiError "HTTP 500: Internal Server Error" 500 JNull) v
           Hurl ltac:(vm_compute; reflexivity) eq_refl eq_refl).
Defined.


(** * Further properties of the polling loop *)

Section Polling.
Context `{Platform}.



(** The test [getResults] applies to a decoded response. *)
Definition results_ready (response : json) : bool :=
  truthy response && typeof_object response
  && is_true (get "success" response) && isArray (get "orders" response).


(** What one run of the loop may add to the trace, for a given callback
    and interval. *)
Definition loop_event (h : Handler) (interval : Z) (e : event) : Prop :=
  match e with
  | Fetch url method body =>
      (url = ENDPOINT_STATUS \/ url = ENDPOINT_RESULTS)
      /\ method = Some "GET" /\ body = None
  | Sleep _ => False
  | Timer ms => ms = interval
  | Progress payload =>
      h = FunctionHandler
      /\ exists q, get "progress" payload = JNum (Fin q)
           /\ (Q2Qc (inject_Z 0) <= q)%Qc /\ (q <= Q2Qc (inject_Z 100))%Qc
  end.

(** The two results of [getScrapingStatus]. *)
Lemma getScrapingStatus_cases oracle tr :
  (exists response,
     getScrapingStatus oracle tr
     = (Return (JObj [("success", JBool true);
                      ("data", response);
                      ("isRunning", JBool (truthy (get "is_running" response)));
                      ("progress", JNum (clamp_progress (get "progress" response)));
                      ("message",
                       js_or (sanitizeInput (get "message" response))
                             (JStr "Status retrieved successfully"))]),
        tr ++ [Fetch ENDPOINT_STATUS (Some "GET") None]))
  \/ (exists e,
        getScrapingStatus oracle tr
        = (Return (JObj [("success", JBool false);
                         ("error", JStr (error_message e));
                         ("status", JNum (num (status_or_zero e)));
                         ("isRunning", JBool false);
                         ("progress", JNum (num 0))]),
           tr ++ [Fetch ENDPOINT_STATUS (Some "GET") None])).
Proof.
  rewrite getScrapingStatus_plain. unfold makeRequest. simpl String.eqb. cbv iota.
  destruct (settle_request (oracle (fetches tr))) as [response|e]; simpl.
  - destruct (validateResponse response ["is_running"]) as [b|e]; simpl; eauto.
  - eauto.
Qed.



Lemma getResults_on oracle tr :
  getResults oracle tr
  = (match settle_request (oracle (fetches tr)) with
     | Return response =>
         Return (if results_ready response
                 then success response "Results retrieved successfully"
                 else failure (ApiError "Results not ready" 202 JNull))
     | Throw e => Return (failure e)
     end, tr ++ [Fetch ENDPOINT_RESULTS (Some "GET") None]).
Proof.
  rewrite getResults_plain. unfold makeRequest, results_ready. simpl String.eqb. cbv iota.
  destruct (settle_request (oracle (fetches tr))) as [response|e]; simpl; [|reflexivity].
  destruct (truthy response && typeof_object response
            && is_true (get "success" response) && isArray (get "orders" response));
    reflexivity.
Qed.








End Polling.




Section LoopEvents.
Context `{Platform}.

Lemma tick_events oracle h interval pollCount tr st tr' :
  tick oracle h interval pollCount tr = (st, tr') ->
  exists extra, tr' = tr ++ extra /\ Forall (loop_event h interval) extra.
Proof.
  assert (Hfetch_s : loop_event h interval (Fetch ENDPOINT_STATUS (Some "GET") None))
    by (simpl; auto).
  assert (Hfetch_r : loop_event h interval (Fetch ENDPOINT_RESULTS (Some "GET") None))
    by (simpl; auto).
  assert (Htimer : loop_event h interval (Timer interval)) by reflexivity.
  unfold tick. destruct (maxPolls <? pollCount + 1).
  { intros E; inversion E. exists []. split; [symmetry; apply app_nil_r|constructor]. }
  destruct (getScrapingStatus_cases oracle tr) as [(response & ->)|(e & ->)].
  - cbn [get assoc String.eqb Ascii.eqb Bool.eqb truthy negb].
    destruct (clamp_progress_range (get "progress" response)) as (q & -> & Hlo & Hhi).
    assert (Hprog : forall running message error,
               h = FunctionHandler ->
               loop_event h interval
                 (Progress (JObj [("isRunning", running); ("progress", JNum (Fin q));
                                  ("message", message); ("error", error)]))).
    { intros running message error Hh. simpl. split; [exact Hh|]. exists q. auto. }
    rewrite !getResults_on.
    destruct h;
      destruct (truthy (get "is_running" response)); simpl negb; cbv iota;
      try destruct (truthy (get "error" response));
      try destruct (truthy (get "results" response));
      try (destruct (settle_request _) as [rr|e];
           [destruct (results_ready rr)|]; simpl);
      intros E; inversion E; subst; rewrite <- ?app_assoc; simpl;
      (eexists; split; [reflexivity|]);
      repeat (apply List.Forall_cons; [first [exact Hfetch_s|exact Hfetch_r|exact Htimer
                                         |apply Hprog; reflexivity]|]);
      apply List.Forall_nil.
  - cbn [get assoc String.eqb Ascii.eqb Bool.eqb truthy negb].
    intros E; inversion E. eexists. split; [reflexivity|].
    apply List.Forall_cons; [exact Hfetch_s|apply List.Forall_nil].
Qed.

Lemma poll_events oracle h interval (fuel : nat) :
  forall pollCount tr r tr',
    poll oracle fuel h interval pollCount tr = Some (r, tr') ->
    exists extra, tr' = tr ++ extra /\ Forall (loop_event h interval) extra.
Proof.
  induction fuel as [|fuel IH]; intros pollCount tr r tr'; [discriminate|].
  cbn [poll].
  destruct (tick oracle h interval pollCount tr) as [[pollCount'|r1] tr1] eqn:Ht;
    destruct (tick_events _ _ _ _ _ _ _ Ht) as (extra1 & -> & Hall1).
  - intros Hp. destruct (IH _ _ _ _ Hp) as (extra2 & -> & Hall2).
    exists (extra1 ++ extra2). split; [symmetry; apply app_assoc|].
    apply Forall_app. split; assumption.
  - intros E; inversion E; subst. eauto.
Qed.

Lemma poll_run_events oracle (h : Handler) (pollInterval : Z) (tr : list event) :
  exists c extra,
    pollScrapingProgress oracle h pollInterval tr = Some (c, tr ++ extra)
    /\ Forall (loop_event h (safePollInterval pollInterval)) extra.
Proof.
  unfold pollScrapingProgress.
  destruct (poll_total oracle h (safePollInterval pollInterval)
              (S (Z.to_nat maxPolls)) 0 tr) as (r & tr' & Hp & _ & _);
    [lia|change (S (Z.to_nat maxPolls)) with 301%nat; lia|].
  destruct (poll_events _ _ _ _ _ _ _ _ Hp) as (extra & -> & Hall).
  destruct h.
  - rewrite Hp. eauto.
  - rewrite Hp. eauto.
  - exists (Throw (ApiError "onProgress must be a function" 400 JNull)), [].
    split; [rewrite app_nil_r; reflexivity|constructor].
Qed.

(** X15: every progress report the loop hands to its callback carries a
    finite progress value between 0 and 100, and reports are made only when
    the callback is a function. *)
Theorem poll_progress_reports oracle (h : Handler) (pollInterval : Z)
    (tr : list event) :
  exists c extra,
    pollScrapingProgress oracle h pollInterval tr = Some (c, tr ++ extra)
    /\ forall payload, In (Progress payload) extra ->
         h = FunctionHandler
         /\ exists q, get "progress" payload = JNum (Fin q)
              /\ (Q2Qc (inject_Z 0) <= q)%Qc /\ (q <= Q2Qc (inject_Z 100))%Qc.
Proof.
  destruct (poll_run_events oracle h pollInterval tr) as (c & extra & Hrun & Hall).
  exists c, extra. split; [exact Hrun|]. intros payload Hin.
  rewrite List.Forall_forall in Hall. exact (Hall _ Hin).
Qed.

(** X16: what the loop sends and schedules.  Every timer it sets uses the
    requested interval clamped into 1000..10000 ms; every request it sends is
    a GET of the status or of the results endpoint, without body; it never
    sleeps between attempts, that is, it never retries a request. *)
Theorem poll_requests_and_timers oracle (h : Handler) (pollInterval : Z)
    (tr : list event) :
  exists c extra,
    pollScrapingProgress oracle h pollInterval tr = Some (c, tr ++ extra)
    /\ (forall ms, In (Timer ms) extra ->
          ms = safePollInterval pollInterval /\ 1000 <= ms <= 10000
          /\ (1000 <= pollInterval <= 10000 -> ms = pollInterval))
    /\ (forall url method body, In (Fetch url method body) extra ->
          (url = ENDPOINT_STATUS \/ url = ENDPOINT_RESULTS)
          /\ method = Some "GET" /\ body = None)
    /\ (forall ms, ~ In (Sleep ms) extra).
Proof.
  destruct (poll_run_events oracle h pollInterval tr) as (c & extra & Hrun & Hall).
  exists c, extra. split; [exact Hrun|].
  rewrite List.Forall_forall in Hall. split; [|split].
  - intros ms Hin. pose proof (Hall _ Hin) as Hms. simpl in Hms. subst ms.
    unfold safePollInterval. split; [reflexivity|]. split; lia.
  - intros url method body Hin. exact (Hall _ Hin).
  - intros ms Hin. exact (Hall _ Hin).
Qed.

(** X11: what a result of [getResults] guarantees.  It sends exactly one
    GET of the results endpoint; when it reports success, its data is the
    decoded response, whose success field is the boolean true and whose
    orders field is an array; in every other case it reports failure, with
    the error of the failed request or with Results not ready and status
    202. *)
Theorem getResults_success_has_orders oracle (tr : list event) :
  exists r,
    getResults oracle tr = (Return r, tr ++ [Fetch ENDPOINT_RESULTS (Some "GET") None])
    /\ ((get "success" r = JBool true
         /\ get "success" (get "data" r) = JBool true
         /\ exists orders, get "orders" (get "data" r) = JArr orders)
        \/ (get "success" r = JBool false
            /\ ((exists e, settle_request (oracle (fetches tr)) = Throw e
                           /\ r = failure e)
                \/ r = failure (ApiError "Results not ready" 202 JNull)))).
Proof.
  rewrite getResults_on.
  destruct (settle_request (oracle (fetches tr))) as [response|e].
  - destruct (results_ready response) eqn:Hready.
    + eexists. split; [reflexivity|]. left. split; [reflexivity|].
      unfold results_ready in Hready.
      apply andb_prop in Hready as [Hr Hord]. apply andb_prop in Hr as [Hr Hsuc].
      cbn [get success assoc String.eqb Ascii.eqb Bool.eqb].
      destruct (get "success" response) as [| |[|]| | | |]; try discriminate.
      destruct (get "orders" response); try discriminate. eauto.
    + eexists. split; [reflexivity|]. right. split; [reflexivity|]. right. reflexivity.
  - eexists. split; [reflexivity|]. right. split; [reflexivity|]. left. eauto.
Qed.

End LoopEvents.

(** * Further properties of the in-flight registry *)

Section RegistryMore.
Context `{Platform}.

(** X17: an outcome, once delivered, is final: whatever calls and
    settlements follow, the holder of a handle that has received an outcome
    keeps seeing exactly that outcome. *)
Theorem settled_outcome_stable (acts : list Action) (w : World) (h : Handle)
    (c : completion json) :
  received h w = Some c -> received h (run acts w) = Some c.
Proof.
  revert w. induction acts as [|a acts IH]; intros w Hrec; [exact Hrec|].
  simpl. apply IH. destruct h as [e|p]; [exact Hrec|].
  simpl in *. destruct (promises w !! p) as [[key|c']|] eqn:Hp; try discriminate.
  assert (Hkeep : promises (act a w) !! p = Some (Settled c')).
  { destruct a as [url options|q fr]; simpl.
    - unfold makeRequest_call. destruct (String.eqb url ""); [exact Hp|].
      destruct (activeRequests w !! getRequestKey url options); [exact Hp|].
      simpl. rewrite lookup_app_l by (eapply lookup_lt_Some, Hp). exact Hp.
    - unfold makeRequest_settle.
      destruct (promises w !! q) as [[keyq|cq]|] eqn:Hq; try exact Hp.
      simpl. rewrite list_lookup_insert_ne by congruence. exact Hp. }
  rewrite Hkeep. exact Hrec.
Qed.

(** X18: requests with different keys do not interfere.  Two calls whose
    keys differ, neither in flight, dispatch one request each and get
    different promises; when the first settles, its caller has the outcome
    while the second stays registered and pending. *)
Theorem distinct_keys_independent (w : World) (url1 url2 : string)
    (options1 options2 : Options) (fr : FetchResult) :
  reachable w -> url1 <> "" -> url2 <> "" ->
  getRequestKey url1 options1 <> getRequestKey url2 options2 ->
  activeRequests w !! getRequestKey url1 options1 = None ->
  activeRequests w !! getRequestKey url2 options2 = None ->
  let w1 := snd (makeRequest_call url1 options1 w) in
  let w2 := snd (makeRequest_call url2 options2 w1) in
  exists p1 p2,
    p1 <> p2
    /\ fst (makeRequest_call url1 options1 w) = Follows p1
    /\ fst (makeRequest_call url2 options2 w1) = Follows p2
    /\ network w2
       = network w ++ [Fetch url1 (opt_method options1) (sanitize_body (opt_body options1));
                       Fetch url2 (opt_method options2) (sanitize_body (opt_body options2))]
    /\ let w3 := makeRequest_settle p1 fr w2 in
       received (Follows p1) w3 = Some (settle_request fr)
       /\ received (Follows p2) w3 = None
       /\ activeRequests w3 !! getRequestKey url1 options1 = None
       /\ activeRequests w3 !! getRequestKey url2 options2 = Some p2.
Proof.
  intros Hreach Hu1 Hu2 Hne Hk1 Hk2 w1 w2. subst w1 w2.
  rewrite (call_proper_url url1 options1 w Hu1), Hk1. cbn [fst snd].
  rewrite (call_proper_url url2 options2 _ Hu2). cbn [activeRequests promises network].
  rewrite lookup_insert_ne by exact Hne. rewrite Hk2. cbn [fst snd].
  exists (length (promises w)), (length (promises w ++ [Pending (getRequestKey url1 options1)])).
  rewrite length_app. simpl length.
  split; [lia|]. split; [reflexivity|]. split; [reflexivity|].
  split; [cbn [network]; rewrite <- app_assoc; reflexivity|].
  unfold makeRequest_settle. cbn [promises activeRequests network].
  assert (Hp1 : ((promises w ++ [Pending (getRequestKey url1 options1)])
                 ++ [Pending (getRequestKey url2 options2)]) !! length (promises w)
                = Some (Pending (getRequestKey url1 options1))).
  { rewrite lookup_app_l by (rewrite length_app; simpl; lia).
    rewrite lookup_app_r by lia. rewrite Nat.sub_diag. reflexivity. }
  rewrite Hp1. cbn [received promises activeRequests].
  split; [rewrite list_lookup_insert_eq by (rewrite !length_app; simpl; lia); reflexivity|].
  split.
  - rewrite list_lookup_insert_ne by lia.
    rewrite lookup_app_r by (rewrite length_app; simpl; lia).
    rewrite length_app. simpl length.
    replace (length (promises w) + 1 - (length (promises w) + 1))%nat with 0%nat by lia.
    reflexivity.
  - split; [apply lookup_delete_eq|].
    rewrite lookup_delete_ne by exact Hne. apply lookup_insert_eq.
Qed.

End RegistryMore.

(** An outcome stays the same after an unrelated call and a stray
    settlement. *)
Lemma settled_outcome_stable_witness :
  let w := run [Call ENDPOINT_STATUS get_options; Settle 0 (running 10)] empty_world in
  let later := [Call ENDPOINT_RESULTS get_options; Settle 0 server_error;
                Call ENDPOINT_STATUS get_options] in
  received (Follows 0) w = Some (settle_request (running 10))
  /\ received (Follows 0) (run later w) = Some (settle_request (running 10)).
Proof.
  intros w later.
  assert (Hrec : received (Follows 0) w = Some (settle_request (running 10)))
    by reflexivity.
  split; [exact Hrec|]. exact (settled_outcome_stable later w _ _ Hrec).
Defined.

(** A status request and a results request in flight together. *)
Lemma distinct_keys_independent_witness :
  let w1 := snd (makeRequest_call ENDPOINT_STATUS get_options empty_world) in
  let w2 := snd (makeRequest_call ENDPOINT_RESULTS get_options w1) in
  reachable empty_world
  /\ getRequestKey ENDPOINT_STATUS get_options <> getRequestKey ENDPOINT_RESULTS get_options
  /\ exists p1 p2,
       p1 <> p2
       /\ network w2 = [Fetch ENDPOINT_STATUS (Some "GET") None;
                        Fetch ENDPOINT_RESULTS (Some "GET") None]
       /\ received (Follows p1) (makeRequest_settle p1 (running 10) w2)
          = Some (settle_request (running 10))
       /\ received (Follows p2) (makeRequest_settle p1 (running 10) w2) = None.
Proof.
  intros w1 w2.
  assert (Hreach : reachable empty_world) by (exists []; reflexivity).
  assert (Hne : getRequestKey ENDPOINT_STATUS get_options
                <> getRequestKey ENDPOINT_RESULTS get_options) by discriminate.
  split; [exact Hreach|]. split; [exact Hne|].
  destruct (distinct_keys_independent empty_world ENDPOINT_STATUS ENDPOINT_RESULTS
              get_options get_options (running 10) Hreach
              ltac:(discriminate) ltac:(discriminate) Hne eq_refl eq_refl)
    as (p1 & p2 & Hp & _ & _ & Hnet & Hout & Hpend & _).
  exists p1, p2. split; [exact Hp|]. split; [exact Hnet|]. split; [exact Hout|exact Hpend].
Defined.

(** * The submit handler of App.jsx *)

(** The component state that [handleDateSubmit] writes: the fields of
    [AppState] and the two date fields. *)
Record AppView : Type := mkView {
  view_app : AppState;
  view_selectedDate : json;
  view_formattedDate : json
}.

Section Submit.
Context `{Platform}.
Variable oracle : nat -> FetchResult.

(** [catch (err) { setError(err.message || ...); setAppState('error') }
    finally { setLoading(false) }] *)
Definition submit_failed (message : string) (app : AppState) (date formatted : json)
  : AppView :=
  mkView (mkApp "error" false (progress app) (progressMessage app)
            (if String.eqb message "" then "An unexpected error occurred" else message)
            (results app) (jobId app))
         date formatted.

(** [handleDateSubmit(date, formatted)], called when the clock reads
    [now].  The first argument it passes to [pollScrapingProgress] is the
    job id read off the start response, a decoded value and therefore not a
    function; the callback and the interval come one position late and are
    never read. *)
Definition handleDateSubmit (date formatted : json) (now : Z) (tr : list event)
  : option (AppView * list event) :=
  let started := mkApp "loading" true 0 "Initializing analysis..." "" JNull JNull in
  match startScraping oracle date now tr with
  | None => None
  | Some (Throw e, tr1) => Some (submit_failed (error_message e) started date formatted, tr1)
  | Some (Return startResponse, tr1) =>
      if negb (truthy (get "success" startResponse))
         || negb (truthy (get "jobId" startResponse)) then
        Some (submit_failed
                (js_string (js_or (get "error" startResponse)
                                  (JStr "Failed to start analysis")))
                started date formatted, tr1)
      else
        let polling := mkApp "loading" true 0 "Analysis started successfully..." ""
                         JNull (get "jobId" startResponse) in
        match pollScrapingProgress oracle NotAFunction 2000 tr1 with
        | None => None
        | Some (Throw e, tr2) =>
            Some (submit_failed (error_message e) polling date formatted, tr2)
        | Some (Return finalResults, tr2) =>
            if truthy (get "success" finalResults) && truthy (get "data" finalResults)
            then Some (mkView (mkApp "success" false 100
                                 "Analysis completed successfully!" ""
                                 (get "data" finalResults) (jobId polling))
                              date formatted, tr2)
            else Some (submit_failed
                         (js_string (js_or (get "error" finalResults)
                                           (JStr "No results received")))
                         polling date formatted, tr2)
        end
  end.

(** A retried call only talks to its own endpoint. *)
Lemma retry_calls_elsewhere url options tr c tr' (other : string) :
  String.eqb url other = false ->
  makeRequestWithRetry oracle url options tr = Some (c, tr') ->
  calls_to other tr' = calls_to other tr.
Proof.
  intros Hne. unfold makeRequestWithRetry. simpl. unfold makeRequest.
  destruct (String.eqb url "").
  { simpl. intros E; inversion E. reflexivity. }
  assert (Hone : forall t m b, calls_to other (t ++ [Fetch url m b]) = calls_to other t)
    by (intros; rewrite calls_to_app; simpl; rewrite Hne; lia).
  assert (Hsleep : forall t ms, calls_to other (t ++ [Sleep ms]) = calls_to other t)
    by (intros; rewrite calls_to_app; simpl; lia).
  destruct (settle_request _); [intros E; inversion E; apply Hone|].
  destruct (shouldRetry e); simpl; [|intros E; inversion E; apply Hone].
  destruct (settle_request _);
    [intros E; inversion E; rewrite Hone, Hsleep; apply Hone|].
  destruct (shouldRetry e0); simpl;
    [|intros E; inversion E; rewrite Hone, Hsleep; apply Hone].
  destruct (settle_request _);
    intros E; inversion E; rewrite Hone, Hsleep, Hone, Hsleep; apply Hone.
Qed.

Lemma startScraping_calls_elsewhere date now tr c tr' (other : string) :
  String.eqb ENDPOINT_SCRAPE other = false ->
  startScraping oracle date now tr = Some (c, tr') ->
  calls_to other tr' = calls_to other tr.
Proof.
  intros Hne. rewrite startScraping_plain. destruct (check_date date now) as [s|e].
  - destruct (makeRequestWithRetry oracle ENDPOINT_SCRAPE _ tr) as [[c0 tr0]|] eqn:Hrun;
      [|discriminate].
    intros E; inversion E; subst. eapply retry_calls_elsewhere; eassumption.
  - intros E; inversion E. reflexivity.
Qed.

(** X19: as the module stands, a submitted date never reaches the polling
    loop.  No result of [startScraping] has a jobId field, so whatever the
    network answers [handleDateSubmit] ends in the error state (loading off,
    no results, job id null, a non-empty error text) without a single status
    or results request; after an accepted start the text is Failed to start
    analysis.  A Cancel pressed afterwards finds no job id and sends
    nothing. *)
Theorem handleDateSubmit_always_errors (date formatted : json) (now : Z)
    (tr : list event) :
  exists view tr',
    handleDateSubmit date formatted now tr = Some (view, tr')
    /\ appState (view_app view) = "error"
    /\ loading (view_app view) = false
    /\ results (view_app view) = JNull
    /\ jobId (view_app view) = JNull
    /\ error (view_app view) <> ""
    /\ status_polls tr' = status_polls tr
    /\ results_calls tr' = results_calls tr
    /\ (forall data message,
          startScraping oracle date now tr = Some (Return (success data message), tr') ->
          error (view_app view) = "Failed to start analysis")
    /\ snd (handleCancel oracle (view_app view) tr') = tr'.
Proof.
  destruct (startScraping_resolves oracle date now tr) as (r & tr' & Hstart & Hshape).
  pose proof (startScraping_calls_elsewhere date now tr _ tr' ENDPOINT_STATUS
                eq_refl Hstart) as Hs.
  pose proof (startScraping_calls_elsewhere date now tr _ tr' ENDPOINT_RESULTS
                eq_refl Hstart) as Hr.
  unfold handleDateSubmit. rewrite Hstart.
  destruct Hshape as [(data & message & ->)|(e & ->)].
  - cbn [get success assoc String.eqb Ascii.eqb Bool.eqb truthy negb orb js_or js_string].
    eexists _, tr'. split; [reflexivity|]. cbn.
    repeat split; try assumption; try discriminate.
  - cbn [get failure assoc String.eqb Ascii.eqb Bool.eqb truthy negb orb].
    eexists _, tr'. split; [reflexivity|].
    unfold submit_failed, js_or, handleCancel.
    cbn [view_app appState loading results jobId error truthy snd].
    repeat split; try assumption.
    + destruct (String.eqb (error_message e) "") eqn:Hm; simpl;
        [discriminate|].
      rewrite Hm. intros Hc. rewrite Hc in Hm. discriminate.
    + intros data message Hc. discriminate.
Qed.

End Submit.

(** * Date helpers: utils, DatePicker, StatsPanel *)

(** [a < b] on numbers; a comparison with NaN is false. *)
Definition js_lt (a b : jsnum) : bool :=
  match a, b with
  | NaN, _ | _, NaN => false
  | PosInf, _ => false
  | _, NegInf => false
  | NegInf, _ => true
  | _, PosInf => true
  | Fin p, Fin q => if decide (p < q)%Qc then true else false
  end.

(** [s.split(sep)] for a one-character separator, on code units. *)
Fixpoint split_on (sep : ascii) (l : list ascii) : list (list ascii) :=
  match l with
  | [] => [[]]
  | c :: rest =>
      if Ascii.eqb c sep then [] :: split_on sep rest
      else match split_on sep rest with
           | p :: ps => (c :: p) :: ps
           | [] => [[c]]
           end
  end.

Fixpoint count_char (sep : ascii) (l : list ascii) : nat :=
  match l with
  | [] => O
  | c :: rest => ((if Ascii.eqb c sep then 1 else 0) + count_char sep rest)%nat
  end.

Definition slash : ascii := ascii_of_nat 47.

Section DateHelpers.
Context `{Platform}.

(** The offset of local time from UTC at a given instant, in
    milliseconds (the host's time zone). *)
Variable LocalTZA : Z -> Z.

(** [date.toLocaleDateString('en-US', ...)] of the date built by
    [new Date(year, month - 1, day)]. *)
Variable toLocaleDateString : jsnum * jsnum * jsnum -> string.

(** [new Date(t).getDay()]: the day of the week of the local calendar day,
    0 for Sunday. *)
Definition getDay (t : Z) : Z := ((t + LocalTZA t) / MS_PER_DAY + 4) mod 7.

(** [utils.isWeekend(dateString)] *)
Definition utils_isWeekend (dateString : string) : bool :=
  match new_Date (DOMPurify_sanitize (trim dateString)) with
  | None => false
  | Some t => (getDay t =? 0) || (getDay t =? 6)
  end.

(** [utils.validateDate(dateString)], called when the clock reads [now]. *)
Definition utils_validateDate (dateString : string) (now : Z) : json :=
  let invalid (message : string) :=
    JObj [("isValid", JBool false); ("error", JStr message)] in
  let sanitizedDate := DOMPurify_sanitize (trim dateString) in
  if String.eqb sanitizedDate "" then invalid "Date is required"
  else if negb (date_regex_test sanitizedDate) then
    invalid "Invalid date format. Use YYYY-MM-DD"
  else
    let date := new_Date sanitizedDate in
    let today := Some now in
    let minDate := new_Date "2010-01-01" in
    match date with
    | None => invalid "Invalid date"
    | Some _ =>
        if time_gt date today then invalid "Date cannot be in the future"
        else if time_lt date minDate then invalid "Date cannot be before 2010"
        else
          let isWeekendDate := utils_isWeekend sanitizedDate in
          JObj [("isValid", JBool true);
                ("isWeekend", JBool isWeekendDate);
                ("warning",
                 if isWeekendDate
                 then JStr "Selected date is a weekend - markets may be closed"
                 else JNull)]
    end.

(** [parseISODateUTC(iso)] of DatePicker.jsx: the instant of
    [iso + 'T00:00:00Z'], [None] for null. *)
Definition parseISODateUTC (iso : string) : option Z :=
  match match_date iso with
  | Some (y, m, d) =>
      if valid_date y m d then Some (days_from_civil y m d * MS_PER_DAY)
      else Date_parse_legacy (iso +:+ "T00:00:00Z")
  | None => None
  end.

(** [validateDate(dateStr)] of DatePicker.jsx; [today] is the date part of
    [new Date().toISOString()].  [None] stands for null (no error). *)
Definition DatePicker_validateDate (dateStr today : string) : option string :=
  if String.eqb dateStr "" then Some "Please select a date"
  else
    let sanitized := DOMPurify_sanitize dateStr in
    if negb (date_regex_test sanitized) then Some "Invalid date format"
    else
      match parseISODateUTC sanitized, parseISODateUTC today,
            parseISODateUTC "2010-01-01" with
      | Some selected, Some max, Some min =>
          if max <? selected then Some "Date cannot be in the future"
          else if selected <? min then Some "Date cannot be before 2010"
          else None
      | _, _, _ => Some "Invalid date"
      end.


(** [validateDate(dateStr)] of StatsPanel: the year, month and day handed
    to [new Date(year, month - 1, day)], or [None] for null. *)
Definition stats_validateDate (dateStr : json) : option (jsnum * jsnum * jsnum) :=
  match dateStr with
  | JStr s =>
      if String.eqb s "" then None
      else
        match split_on slash (list_ascii_of_string s) with
        | [p0; p1; p2] =>
            let day := parseInt (string_of_list_ascii p0) in
            let month := parseInt (string_of_list_ascii p1) in
            let year := parseInt (string_of_list_ascii p2) in
            if js_lt day (num 1) || js_lt (num 31) day
               || js_lt month (num 1) || js_lt (num 12) month
               || js_lt year (num 2000) || js_lt (num 2030) year
            then None
            else Some (year, month, day)
        | _ => None
        end
  | _ => None
  end.

(** [formatDate(dateStr)] of StatsPanel *)
Definition stats_formatDate (dateStr : json) : string :=
  match stats_validateDate dateStr with
  | None => "Invalid Date"
  | Some validDate => toLocaleDateString validDate
  end.

(** X20: the pre-check and the request agree.  On every string,
    [utils.validateDate] reports isValid true exactly when the local checks
    of [startScraping] accept it (and then post its sanitised form);
    otherwise it reports isValid false with a non-empty error text. *)
Theorem utils_validateDate_agrees (dateString : string) (now : Z) :
  (get "isValid" (utils_validateDate dateString now) = JBool true
   <-> check_date (JStr dateString) now
       = Return (DOMPurify_sanitize (trim dateString)))
  /\ (get "isValid" (utils_validateDate dateString now) = JBool true
      \/ (get "isValid" (utils_validateDate dateString now) = JBool false
          /\ exists message, get "error" (utils_validateDate dateString now) = JStr message
                             /\ message <> "")).
Proof.
  unfold utils_validateDate, check_date. simpl sanitizeInput. cbv beta iota zeta.
  assert (Hbad : forall message e,
             message <> "" ->
             let r := JObj [("isValid", JBool false); ("error", JStr message)] in
             (get "isValid" r = JBool true
              <-> @Throw string e = Return (DOMPurify_sanitize (trim dateString)))
             /\ (get "isValid" r = JBool true
                 \/ (get "isValid" r = JBool false
                     /\ exists message', get "error" r = JStr message'
                                         /\ message' <> ""))).
  { intros message e Hne r. split; [split; intros E; discriminate E|].
    right. split; [reflexivity|]. exists message. split; [reflexivity|exact Hne]. }
  destruct (String.eqb (DOMPurify_sanitize (trim dateString)) "");
    [apply Hbad; discriminate|].
  destruct (negb (date_regex_test (DOMPurify_sanitize (trim dateString))));
    [apply Hbad; discriminate|].
  destruct (new_Date (DOMPurify_sanitize (trim dateString))) as [t|];
    [|apply Hbad; discriminate].
  destruct (time_gt (Some t) (Some now)); [apply Hbad; discriminate|].
  destruct (time_lt (Some t) (new_Date "2010-01-01")); [apply Hbad; discriminate|].
  split; [split; reflexivity|left; reflexivity].
Qed.

(** X21: the weekend test reads the local day of the week at UTC midnight
    of the date.  With a local offset of zero or more (and less than a day)
    a sanitised calendar date is reported as a weekend exactly on Saturdays
    and Sundays; with a negative offset (local time behind UTC) it is
    reported exactly on Sundays and Mondays, so a Saturday passes as a
    working day and a Monday is flagged. *)
Theorem isWeekend_local_day (s : string) (y m d : Z) :
  DOMPurify_sanitize (trim s) = s ->
  match_date s = Some (y, m, d) -> valid_date y m d = true ->
  let t := days_from_civil y m d * MS_PER_DAY in
  let weekday := (days_from_civil y m d + 4) mod 7 in
  (0 <= LocalTZA t < MS_PER_DAY ->
   utils_isWeekend s = (weekday =? 6) || (weekday =? 0))
  /\ (- MS_PER_DAY <= LocalTZA t < 0 ->
      utils_isWeekend s = (weekday =? 0) || (weekday =? 1)).
Proof.
  intros Hs Hm Hv t weekday. unfold utils_isWeekend, new_Date.
  rewrite Hs, Hm, Hv. fold t. unfold getDay, MS_PER_DAY in *.
  split; intros Hoff.
  - replace ((t + LocalTZA t) / 86400000) with (days_from_civil y m d)
      by (apply (Z.div_unique _ _ _ (LocalTZA t)); [left; lia|subst t; lia]).
    fold weekday. apply orb_comm.
  - replace ((t + LocalTZA t) / 86400000) with (days_from_civil y m d - 1)
      by (apply (Z.div_unique _ _ _ (LocalTZA t + 86400000));
          [left; lia|subst t; lia]).
    assert (Hw : (days_from_civil y m d - 1 + 4) mod 7 = (weekday + 6) mod 7).
    { subst weekday. rewrite Zplus_mod_idemp_l.
      replace (days_from_civil y m d + 4 + 6)
        with (days_from_civil y m d - 1 + 4 + 1 * 7) by lia.
      rewrite Z_mod_plus_full. reflexivity. }
    rewrite Hw. pose proof (Z.mod_pos_bound (days_from_civil y m d + 4) 7 eq_refl) as Hb.
    fold weekday in Hb.
    assert (Hc : weekday = 0 \/ weekday = 1 \/ weekday = 2 \/ weekday = 3
                 \/ weekday = 4 \/ weekday = 5 \/ weekday = 6) by lia.
    destruct Hc as [->|[->|[->|[->|[->|[->| ->]]]]]]; reflexivity.
Qed.

End DateHelpers.

Section DateHelperProperties.
Context `{Platform}.
Variable toLocaleDateString : jsnum * jsnum * jsnum -> string.

(** X22: the form and the request agree.  For a calendar date that the
    sanitiser leaves unchanged, the DatePicker check (against today's UTC
    date) raises no error exactly when the local checks of [startScraping]
    (against the current instant) accept the date. *)
Theorem DatePicker_agrees_with_startScraping (s today : string) (now y m d : Z) :
  DOMPurify_sanitize s = s -> trim s = s ->
  match_date s = Some (y, m, d) -> valid_date y m d = true ->
  parseISODateUTC today = Some (now / MS_PER_DAY * MS_PER_DAY) ->
  (DatePicker_validateDate s today = None <-> check_date (JStr s) now = Return s).
Proof.
  intros Hp Ht Hm Hv Htoday.
  assert (Hs : sanitizeInput (JStr s) = JStr s) by (simpl; rewrite Ht, Hp; reflexivity).
  rewrite (check_date_calendar (JStr s) now s y m d Hs Hm Hv).
  unfold DatePicker_validateDate. rewrite Hp.
  destruct (match_date_nonempty _ _ Hm) as [-> ->]. simpl negb. cbv iota.
  rewrite Htoday.
  assert (Hsel : parseISODateUTC s = Some (days_from_civil y m d * MS_PER_DAY))
    by (unfold parseISODateUTC; rewrite Hm, Hv; reflexivity).
  assert (Hmin : parseISODateUTC "2010-01-01" = Some (14610 * MS_PER_DAY)) by reflexivity.
  rewrite Hsel, Hmin.
  assert (Hcmp : (now / MS_PER_DAY * MS_PER_DAY <? days_from_civil y m d * MS_PER_DAY)
                 = (now <? days_from_civil y m d * MS_PER_DAY)).
  { unfold MS_PER_DAY.
    destruct (Z.ltb_spec (now / 86400000 * 86400000) (days_from_civil y m d * 86400000));
      destruct (Z.ltb_spec now (days_from_civil y m d * 86400000)); try reflexivity;
      exfalso; Z.to_euclidean_division_equations; nia. }
  rewrite Hcmp. destruct (now <? days_from_civil y m d * MS_PER_DAY);
    [split; discriminate|].
  destruct (days_from_civil y m d * MS_PER_DAY <? 14610 * MS_PER_DAY);
    [split; discriminate|split; reflexivity].
Qed.



Lemma split_on_length (sep : ascii) (l : list ascii) :
  length (split_on sep l) = S (count_char sep l).
Proof.
  induction l as [|c l IH]; simpl; [reflexivity|].
  destruct (Ascii.eqb c sep); simpl; [rewrite IH; reflexivity|].
  destruct (split_on sep l) as [|p ps]; simpl in *; [discriminate|exact IH].
Qed.

Lemma digit_not_slash (c : ascii) : is_digit c = true -> Ascii.eqb c slash = false.
Proof.
  intros Hd. destruct (Ascii.eqb_spec c slash) as [->|]; [|reflexivity].
  discriminate Hd.
Qed.

Lemma hyphen_not_slash (c : ascii) : Ascii.eqb c "-" = true -> Ascii.eqb c slash = false.
Proof. intros Hc. apply Ascii.eqb_eq in Hc. subst. reflexivity. Qed.

Lemma date_shape_no_slash (s : string) (ymd : Z * Z * Z) :
  match_date s = Some ymd -> count_char slash (list_ascii_of_string s) = 0%nat.
Proof.
  unfold match_date.
  destruct (list_ascii_of_string s)
    as [|y1 [|y2 [|y3 [|y4 [|h1 [|m1 [|m2 [|h2 [|d1 [|d2 [|x rest]]]]]]]]]]];
    try discriminate.
  destruct (forallb is_digit [y1; y2; y3; y4; m1; m2; d1; d2]) eqn:Hd; [|discriminate].
  destruct (Ascii.eqb h1 "-") eqn:H1; [|discriminate].
  destruct (Ascii.eqb h2 "-") eqn:H2; [|discriminate]. intros _.
  simpl in Hd. repeat (apply andb_prop in Hd as [? Hd]).
  cbn [count_char].
  repeat match goal with
         | Hx : is_digit ?c = true |- _ => rewrite (digit_not_slash c Hx); clear Hx
         end.
  rewrite (hyphen_not_slash h1 H1), (hyphen_not_slash h2 H2). reflexivity.
Qed.

(** X24: the results panel expects day/month/year.  Its [validateDate]
    returns null for every string that does not hold exactly two slashes;
    in particular every date that [startScraping] accepts (shape
    YYYY-MM-DD) is displayed by [formatDate] as Invalid Date. *)
Theorem stats_panel_rejects_iso_dates (date : json) (now : Z) (s : string) :
  (forall text, count_char slash (list_ascii_of_string text) <> 2%nat ->
                stats_validateDate (JStr text) = None)
  /\ (check_date date now = Return s ->
      stats_validateDate (JStr s) = None
      /\ stats_formatDate toLocaleDateString (JStr s) = "Invalid Date").
Proof.
  assert (Hgen : forall text, count_char slash (list_ascii_of_string text) <> 2%nat ->
                              stats_validateDate (JStr text) = None).
  { intros text Hc. unfold stats_validateDate.
    destruct (String.eqb text ""); [reflexivity|].
    pose proof (split_on_length slash (list_ascii_of_string text)) as Hlen.
    destruct (split_on slash (list_ascii_of_string text)) as [|p0 [|p1 [|p2 [|p3 ps]]]];
      try reflexivity.
    simpl in Hlen. lia. }
  split; [exact Hgen|]. intros Hacc.
  assert (Hshape : date_regex_test s = true).
  { unfold check_date in Hacc. destruct (sanitizeInput date); try discriminate.
    destruct (String.eqb s0 ""); [discriminate|].
    destruct (date_regex_test s0) eqn:Hre; [|discriminate].
    cbn [negb] in Hacc. destruct (new_Date s0); [|discriminate].
    destruct (time_gt _ _); [discriminate|].
    destruct (time_lt _ _); [discriminate|]. inversion Hacc; subst. exact Hre. }
  unfold date_regex_test in Hshape.
  destruct (match_date s) as [ymd|] eqn:Hm; [|discriminate].
  assert (Hnone : stats_validateDate (JStr s) = None)
    by (apply Hgen; rewrite (date_shape_no_slash s ymd Hm); lia).
  split; [exact Hnone|]. unfold stats_formatDate. rewrite Hnone. reflexivity.
Qed.

End DateHelperProperties.

(** A Monday, seen from UTC and from five hours behind. *)
Lemma isWeekend_local_day_witness :
  let s := "2015-06-01" in
  DOMPurify_sanitize (trim s) = s
  /\ match_date s = Some (2015, 6, 1)
  /\ valid_date 2015 6 1 = true
  /\ (days_from_civil 2015 6 1 + 4) mod 7 = 1
  /\ utils_isWeekend (fun _ => 0) s = false
  /\ utils_isWeekend (fun _ => -18000000) s = true.
Proof.
  intros s.
  assert (Hs : DOMPurify_sanitize (trim s) = s) by reflexivity.
  assert (Hm : match_date s = Some (2015, 6, 1)) by reflexivity.
  assert (Hv : valid_date 2015 6 1 = true) by reflexivity.
  split; [exact Hs|]. split; [exact Hm|]. split; [exact Hv|]. split; [reflexivity|].
  split.
  - rewrite (proj1 (isWeekend_local_day (fun _ => 0) s 2015 6 1 Hs Hm Hv));
      [reflexivity|unfold MS_PER_DAY; lia].
  - rewrite (proj2 (isWeekend_local_day (fun _ => -18000000) s 2015 6 1 Hs Hm Hv));
      [reflexivity|unfold MS_PER_DAY; lia].
Defined.

(** A past date, checked by the form and by the request on 2027-01-15. *)
Lemma DatePicker_agrees_with_startScraping_witness :
  let now := 1800000000000 in
  DOMPurify_sanitize "2015-06-01" = "2015-06-01"
  /\ trim "2015-06-01" = "2015-06-01"
  /\ parseISODateUTC "2027-01-15" = Some (now / MS_PER_DAY * MS_PER_DAY)
  /\ DatePicker_validateDate "2015-06-01" "2027-01-15" = None
  /\ check_date (JStr "2015-06-01") now = Return "2015-06-01".
Proof.
  intros now.
  assert (Hiff := DatePicker_agrees_with_startScraping "2015-06-01" "2027-01-15"
                    now 2015 6 1 eq_refl eq_refl eq_refl eq_refl eq_refl).
  split; [reflexivity|]. split; [reflexivity|]. split; [reflexivity|].
  assert (Hd : DatePicker_validateDate "2015-06-01" "2027-01-15" = None)
    by (vm_compute; reflexivity).
  split; [exact Hd|]. exact (proj1 Hiff Hd).
Defined.

(** * The request key *)

Section RequestKey.
Context `{Platform}.

(** X25: the key takes a missing or empty method for GET and an empty body
    for none, so such calls share one request: while an explicit GET of a
    URL is in flight, a call of the same URL without method (or with an
    empty one) attaches to it and dispatches nothing. *)
Theorem default_method_shares_request (w : World) (url : string) :
  url <> "" ->
  activeRequests w !! getRequestKey url (mkOptions (Some "GET") None) = None ->
  let w1 := snd (makeRequest_call url (mkOptions (Some "GET") None) w) in
  let p := length (promises w) in
  fst (makeRequest_call url (mkOptions (Some "GET") None) w) = Follows p
  /\ makeRequest_call url (mkOptions None None) w1 = (Follows p, w1)
  /\ makeRequest_call url (mkOptions (Some "") None) w1 = (Follows p, w1)
  /\ makeRequest_call url (mkOptions None (Some "")) w1 = (Follows p, w1)
  /\ length (network w1) = S (length (network w)).
Proof.
  intros Hurl Hkey w1 p. subst w1 p.
  assert (K1 : getRequestKey url (mkOptions None None)
               = getRequestKey url (mkOptions (Some "GET") None)) by reflexivity.
  assert (K2 : getRequestKey url (mkOptions (Some "") None)
               = getRequestKey url (mkOptions (Some "GET") None)) by reflexivity.
  assert (K3 : getRequestKey url (mkOptions None (Some ""))
               = getRequestKey url (mkOptions (Some "GET") None)) by reflexivity.
  rewrite (call_proper_url url (mkOptions (Some "GET") None) w Hurl), Hkey. cbn [fst snd].
  split; [reflexivity|].
  rewrite !(call_proper_url url _ _ Hurl), K1, K2, K3. cbn [activeRequests network].
  rewrite lookup_insert_eq. repeat split. rewrite length_app. simpl. lia.
Qed.

End RequestKey.

(** A GET of the status endpoint, then the same call without method. *)
Lemma default_method_shares_request_witness :
  let w1 := snd (makeRequest_call ENDPOINT_STATUS get_options empty_world) in
  ENDPOINT_STATUS <> ""
  /\ activeRequests empty_world !! getRequestKey ENDPOINT_STATUS get_options = None
  /\ makeRequest_call ENDPOINT_STATUS (mkOptions None None) w1 = (Follows 0, w1)
  /\ length (network w1) = 1%nat.
Proof.
  intros w1.
  assert (Hurl : ENDPOINT_STATUS <> "") by discriminate.
  assert (Hkey : activeRequests empty_world
                 !! getRequestKey ENDPOINT_STATUS get_options = None) by reflexivity.
  split; [exact Hurl|]. split; [exact Hkey|].
  destruct (default_method_shares_request empty_world ENDPOINT_STATUS Hurl Hkey)
    as (_ & Hshare & _ & _ & Hlen).
  split; [exact Hshare|exact Hlen].
Defined.
